(** * The content loader of the blog: posts and the about page

    A shallow embedding of [lib/posts.ts] ([getSortedPostsData],
    [getAllPostIds], [getPostData]) and [lib/about.ts]
    ([getAboutPageData]).

    The loader is glue around Node's [fs] and [path] modules, [gray-matter],
    [remark], [remark-html] and [remark-prism].  The file system is a finite
    map from paths to nodes; the libraries are the fields of the [Runtime]
    class; every loader operation is a computation in a small monad that
    threads the file system, records the library calls it makes and
    propagates exceptions.  What a run leaves behind in the process, the
    cache of gray-matter, is a change of the [Runtime]. *)

From Stdlib Require Import String Ascii ZArith List Sorted Permutation.
From Stdlib Require OrderedTypeEx.
From stdpp Require Import base option list gmap strings fin_maps sorting.

Local Open Scope string_scope.

(** ** JavaScript values and objects *)

(** The values front matter can hold.  A JavaScript string is a sequence of
    code units; here each character of a [string] stands for one code
    unit. *)
Inductive JsValue : Type :=
  | JUndefined
  | JNull
  | JBool (b : bool)
  | JNum (n : Z)
  | JStr (s : string).

#[global] Instance JsValue_eq_dec : EqDecision JsValue.
Proof. solve_decision. Defined.

(** A plain object [{ [key: string]: any }]. *)
Abbreviation JsObject := (gmap string JsValue).

(** Property access [o.k]: a missing key reads as [undefined]. *)
Definition prop (o : JsObject) (k : string) : JsValue :=
  default JUndefined (o !! k).

(** Object spread [{ ...target-literal, ...src }]: every own key of [src] is
    assigned over what the literal already holds. *)
Definition spread (src target : JsObject) : JsObject := src ∪ target.

(** ** Exceptions, library calls, the file system *)

Inductive JsError : Type :=
  | ENOENT (path : string)
  | EISDIR (path : string)
  | ENOTDIR (path : string)
  | MatterError (msg : string)
  | RemarkError (msg : string).

Inductive Outcome (A : Type) : Type :=
  | Returned (a : A)
  | Threw (e : JsError).
Arguments Returned {A} a.
Arguments Threw {A} e.

(** Options of [remark-html]; [sanitize] may be left out. *)
Record HtmlOptions : Type := { sanitize : option bool }.

(** A plugin attached with [.use(...)]. *)
Inductive Plugin : Type :=
  | PluginHtml (options : option HtmlOptions)
  | PluginPrism.

(** The result of [matter(text)], restricted to the fields the loader
    reads. *)
Record GrayMatterFile : Type := { data : JsObject; content : string }.

Inductive FsNode : Type :=
  | RegularFile (contents : string)
  | Directory (entries : list string).

(** The content store: what is on disk, by path. *)
Record World : Type := { nodes : gmap string FsNode }.

(** The proper ancestors of a path: what stands before each of its
    separators. *)
Fixpoint ancestors_from (before rest : string) : list string :=
  match rest with
  | EmptyString => []
  | String c rest' =>
      (if Ascii.eqb c "/" && negb (String.eqb before "") then [before]
       else [])
      ++ ancestors_from (before ++ String c "") rest'
  end.

Definition ancestors (path : string) : list string := ancestors_from "" path.

(** A component of the path is a regular file, so the path cannot be
    walked to its end. *)
Definition below_file (w : World) (path : string) : bool :=
  existsb (λ ancestor,
             match nodes w !! ancestor with
             | Some (RegularFile _) => true
             | _ => false
             end) (ancestors path).

(** The error of a file-system call on a path that names nothing:
    [ENOTDIR] when the walk to it is stopped by a regular file, [ENOENT]
    when an entry is missing. *)
Definition absent (w : World) (path : string) : JsError :=
  if below_file w path then ENOTDIR path else ENOENT path.

(** The components of a path. *)
Fixpoint components (path : string) : list string :=
  match path with
  | EmptyString => [""]
  | String c rest =>
      if Ascii.eqb c "/" then "" :: components rest
      else match components rest with
           | first :: others => String c first :: others
           | [] => [String c ""]
           end
  end.

Fixpoint has_NUL (s : string) : bool :=
  match s with
  | EmptyString => false
  | String c rest => Ascii.eqb c "000" || has_NUL rest
  end.

(** A path the file system accepts for a look-up: no NUL character, no
    component over 255 characters, fewer than 4096 in all.  Outside of
    these limits a look-up fails in other ways, which are not modelled. *)
Definition within_limits (path : string) : bool :=
  negb (has_NUL path)
  && (String.length path <? 4096)%nat
  && forallb (λ c, (String.length c <=? 255)%nat) (components path).

Inductive Event : Type :=
  | EvReaddir (path : string)
  | EvReadFile (path : string)
  | EvMatter (text : string)
  | EvRemark (plugins : list Plugin) (body : string).

(** ** The monad of loader computations *)

Record Run (A : Type) : Type :=
  MkRun { outcome : Outcome A; trace : list Event; after : World }.
Arguments MkRun {A} outcome trace after.
Arguments outcome {A} r.
Arguments trace {A} r.
Arguments after {A} r.

Definition IO (A : Type) : Type := World → Run A.

Definition io_ret {A} (a : A) : IO A := λ w, MkRun (Returned a) [] w.

Definition io_bind {A B} (f : A → IO B) (m : IO A) : IO B := λ w,
  let r := m w in
  match outcome r with
  | Returned a =>
      let r' := f a (after r) in
      MkRun (outcome r') (trace r ++ trace r') (after r')
  | Threw e => MkRun (Threw e) (trace r) (after r)
  end.

#[global] Instance IO_ret : MRet IO := @io_ret.
#[global] Instance IO_bind : MBind IO := @io_bind.

(** A library call that may throw, recorded in the trace. *)
Definition call {A} (ev : Event) (r : Outcome A) : IO A := λ w, MkRun r [ev] w.

(** [array.map(callback)] with a callback that has effects: elements are
    visited in order and the first exception ends the loop. *)
Fixpoint Array_map {A B} (callback : A → IO B) (array : list A) : IO (list B) :=
  match array with
  | [] => mret []
  | x :: rest =>
      y ← callback x;
      ys ← Array_map callback rest;
      mret (y :: ys)
  end.

(** ** Built-ins of the language *)

(** [s.replace(/\.md$/, "")]: the pattern can only match at the end of the
    input, so the suffix [.md] is dropped when present and the string is
    returned as it is otherwise. *)
Fixpoint replace_md (s : string) : string :=
  match s with
  | EmptyString => EmptyString
  | String c s' => if String.eqb s ".md" then "" else String c (replace_md s')
  end.

(** [array.sort(comparefn)]: [comparefn a b > 0] asks for [a] after [b].
    The built-in is modelled by a stable insertion sort. *)
Fixpoint sort_insert {A} (comparefn : A → A → Z) (x : A) (sorted : list A) : list A :=
  match sorted with
  | [] => [x]
  | y :: rest =>
      if (0 <? comparefn x y)%Z then y :: sort_insert comparefn x rest
      else x :: y :: rest
  end.

Fixpoint Array_sort {A} (comparefn : A → A → Z) (array : list A) : list A :=
  match array with
  | [] => []
  | x :: rest => sort_insert comparefn x (Array_sort comparefn rest)
  end.

(** ** The libraries the loader calls *)

Class Runtime : Type := {
  (** [process.cwd()] *)
  process_cwd : string;
  (** [path.join(a, b)] *)
  path_join : string → string → string;
  (** [matter(text)] of gray-matter, in the state the process is in:
      gray-matter keeps a cache, and what a call does to it is
      [process_after] below *)
  matter : string → Outcome GrayMatterFile;
  (** [remark().use(p1).use(p2)....process(body)], then [toString()] *)
  remark_process : list Plugin → string → Outcome string;
  (** the numeric branch of the relational comparison [x < y], taken when
      the operands are not both strings *)
  lt_numeric : JsValue → JsValue → bool
}.

(** [remark-html] resolves its [sanitize] setting this way: a boolean is
    taken as given, and when the setting or the whole options object is
    left out the output is sanitized. *)
Definition remarkHtml_clean (options : option HtmlOptions) : bool :=
  match options with
  | Some {| sanitize := Some b |} => b
  | _ => true
  end.

(** Raw HTML of the markdown source reaches the output only through an
    html plugin that does not sanitize. *)
Definition raw_html_passes (plugins : list Plugin) : bool :=
  existsb (λ p, match p with
                | PluginHtml options => negb (remarkHtml_clean options)
                | PluginPrism => false
                end) plugins.

Definition prism_enabled (plugins : list Plugin) : bool :=
  existsb (λ p, match p with PluginPrism => true | _ => false end) plugins.

(** The element type of what [getAllPostIds] returns:
    [{ params: { id } }]. *)
Record Params : Type := { id : string }.
Record StaticPath : Type := { params : Params }.

Section Loader.
Context `{RT : Runtime}.

(** [x < y] *)
Definition js_lt (x y : JsValue) : bool :=
  match x, y with
  | JStr s, JStr t => String.ltb s t
  | _, _ => lt_numeric x y
  end.

(** [fs.readdirSync(path)] *)
Definition readdirSync (path : string) : IO (list string) := λ w,
  MkRun (match nodes w !! path with
         | Some (Directory entries) => Returned entries
         | Some (RegularFile _) => Threw (ENOTDIR path)
         | None => Threw (absent w path)
         end) [EvReaddir path] w.

(** [fs.readFileSync(path, "utf8")] *)
Definition readFileSync (path : string) : IO string := λ w,
  MkRun (match nodes w !! path with
         | Some (RegularFile contents) => Returned contents
         | Some (Directory _) => Threw (EISDIR path)
         | None => Threw (absent w path)
         end) [EvReadFile path] w.

(** *** lib/posts.ts *)

Definition postsDirectory : string := path_join process_cwd "posts".

(** The callback of [fileNames.map] in [getSortedPostsData]. *)
Definition postSummary (fileName : string) : IO JsObject :=
  let id := replace_md fileName in
  let fullPath := path_join postsDirectory fileName in
  fileContents ← readFileSync fullPath;
  matterResult ← call (EvMatter fileContents) (matter fileContents);
  mret (spread (data matterResult) {[ "id" := JStr id ]}).

(** The comparison function handed to [sort]. *)
Definition byDate (a b : JsObject) : Z :=
  if js_lt (prop a "date") (prop b "date") then 1%Z else (-1)%Z.

Definition getSortedPostsData : IO (list JsObject) :=
  fileNames ← readdirSync postsDirectory;
  allPostsData ← Array_map postSummary fileNames;
  mret (Array_sort byDate allPostsData).

Definition getAllPostIds : IO (list StaticPath) :=
  fileNames ← readdirSync postsDirectory;
  mret ((λ fileName, {| params := {| id := replace_md fileName |} |})
          <$> fileNames).

Definition postPlugins : list Plugin :=
  [PluginHtml (Some {| sanitize := Some false |}); PluginPrism].

Definition getPostData (id : string) : IO JsObject :=
  let fullPath := path_join postsDirectory (id ++ ".md") in
  fileContents ← readFileSync fullPath;
  matterResult ← call (EvMatter fileContents) (matter fileContents);
  contentHtml ← call (EvRemark postPlugins (content matterResult))
                     (remark_process postPlugins (content matterResult));
  mret (spread (data matterResult)
               (<[ "contentHtml" := JStr contentHtml ]>
                  {[ "id" := JStr id ]})).

(** *** lib/about.ts *)

Definition aboutPageDirectory : string := path_join process_cwd "about".

Definition aboutPlugins : list Plugin := [PluginHtml None].

Definition getAboutPageData : IO JsObject :=
  let fullPath := path_join aboutPageDirectory "about.md" in
  fileContents ← readFileSync fullPath;
  matterResult ← call (EvMatter fileContents) (matter fileContents);
  contentHtml ← call (EvRemark aboutPlugins (content matterResult))
                     (remark_process aboutPlugins (content matterResult));
  mret (spread (data matterResult) {[ "contentHtml" := JStr contentHtml ]}).

End Loader.

(** ** A reference runtime

    A small executable instance of [Runtime], on which the loader can be
    run.  Its parser and renderer cover the fragment the repository's
    content uses in its front matter and the simplest markdown blocks; they
    agree with gray-matter and remark on that fragment and make no claim
    outside of it. *)

Module Reference.

Definition LF : ascii := ascii_of_nat 10.
Definition DQ : ascii := ascii_of_nat 34.

(** One line of text followed by a line feed. *)
Definition line (s : string) : string := s ++ String LF "".

Fixpoint split_lines (s : string) : list string :=
  match s with
  | EmptyString => [""]
  | String c s' =>
      if Ascii.eqb c LF then "" :: split_lines s'
      else match split_lines s' with
           | l :: ls => String c l :: ls
           | [] => [String c ""]
           end
  end.

Definition join_lines (ls : list string) : string :=
  String.concat (String LF "") ls.

(** A scalar of the metadata block: a double-quoted string, [true],
    [false], or a plain word. *)
Definition scalar (v : string) : JsValue :=
  let n := String.length v in
  if (2 <=? n)%nat && String.prefix (String DQ "") v
     && String.eqb (substring (n - 1) 1 v) (String DQ "")
  then JStr (substring 1 (n - 2) v)
  else if String.eqb v "true" then JBool true
  else if String.eqb v "false" then JBool false
  else JStr v.

(** The [key: value] lines of the metadata block; a line of another shape
    or a repeated key is an error. *)
Fixpoint fields (ls : list string) (acc : JsObject) : option JsObject :=
  match ls with
  | [] => Some acc
  | l :: rest =>
      match index 0 ": " l with
      | Some i =>
          let k := substring 0 i l in
          let v := substring (i + 2) (String.length l - (i + 2)) l in
          match acc !! k with
          | None => fields rest (<[ k := scalar v ]> acc)
          | Some _ => None
          end
      | None => None
      end
  end.

(** Splits the lines after the opening fence at the closing one. *)
Fixpoint fence (ls : list string) : list string * list string :=
  match ls with
  | [] => ([], [])
  | l :: rest =>
      if String.eqb l "---" then ([], rest)
      else let '(header, body) := fence rest in (l :: header, body)
  end.

Definition gray_matter (text : string) : Outcome GrayMatterFile :=
  match split_lines text with
  | first :: rest =>
      if String.eqb first "---" then
        let '(header, body) := fence rest in
        match fields header ∅ with
        | Some d => Returned {| data := d; content := join_lines body |}
        | None => Threw (MatterError "bad metadata block")
        end
      else Returned {| data := ∅; content := text |}
  | [] => Returned {| data := ∅; content := text |}
  end.

(** One markdown block per line: a heading, a [div] block of raw HTML
    (dropped when the output is sanitized), or a paragraph of plain
    words. *)
Definition render_line (clean : bool) (l : string) : string :=
  if String.eqb l "" then ""
  else if String.prefix "# " l
  then line ("<h1>" ++ substring 2 (String.length l - 2) l ++ "</h1>")
  else if String.prefix "<div" l
  then (if clean then "" else line l)
  else line ("<p>" ++ l ++ "</p>").

Definition remark_html (plugins : list Plugin) (body : string)
  : Outcome string :=
  Returned (String.concat ""
              (map (render_line (negb (raw_html_passes plugins)))
                   (split_lines body))).

(** [path.normalize] of POSIX paths: empty and [.] components go away, a
    [..] takes back the component before it. *)
Fixpoint resolve_dots (absolute : bool) (kept segments : list string)
  : list string :=
  match segments with
  | [] => rev kept
  | segment :: rest =>
      if String.eqb segment "" || String.eqb segment "."
      then resolve_dots absolute kept rest
      else if String.eqb segment ".."
      then match kept with
           | top :: below =>
               if String.eqb top ".."
               then resolve_dots absolute (".." :: kept) rest
               else resolve_dots absolute below rest
           | [] =>
               if absolute then resolve_dots absolute [] rest
               else resolve_dots absolute [".."] rest
           end
      else resolve_dots absolute (segment :: kept) rest
  end.

Definition normalize (path : string) : string :=
  if String.eqb path "" then "."
  else
    let absolute := String.prefix "/" path in
    let trailing :=
      String.eqb (substring (String.length path - 1) 1 path) "/" in
    let body :=
      String.concat "/" (resolve_dots absolute [] (components path)) in
    if String.eqb body ""
    then (if absolute then "/" else if trailing then "./" else ".")
    else (if absolute then "/" else "")
           ++ body ++ (if trailing then "/" else "").

(** [path.join(a, b)] *)
Definition join (a b : string) : string :=
  if String.eqb a "" then (if String.eqb b "" then "." else normalize b)
  else if String.eqb b "" then normalize a
  else normalize (a ++ "/" ++ b).

#[local] Instance runtime : Runtime := {|
  process_cwd := "/site";
  path_join := join;
  matter := gray_matter;
  remark_process := remark_html;
  lt_numeric := λ _ _, false
|}.

(** A post file: a metadata block given by its lines, then the body. *)
Definition post_file (header : list string) (body : string) : string :=
  line "---" ++ String.concat "" (map line header) ++ line "---" ++ body.

Definition quoted (s : string) : string := String DQ s ++ String DQ "".

Definition world (files : list (string * FsNode)) : World :=
  {| nodes := list_to_map files |}.

End Reference.

(** ** Properties of computations *)

(** A computation that leaves the content store as it found it. *)
Definition read_only {A} (m : IO A) : Prop := ∀ w, after (m w) = w.

(** *** The cache of gray-matter

    [matter(text)], called without options, stores the file object under
    its text before it parses it, and answers a later call for the same
    text from that store.  A parse that succeeds completes the stored
    object, so the later call gets the same data and body.  A parse that
    throws leaves the object as it was created: no data, the whole text as
    its body; that is what every later call in the process gets. *)







(** Calls of the markdown renderer. *)
Definition is_render (ev : Event) : bool :=
  match ev with
  | EvRemark _ _ => true
  | _ => false
  end.

Definition never_renders {A} (m : IO A) : Prop :=
  ∀ w, Forall (λ ev, is_render ev = false) (trace (m w)).

(** [a.date >= b.date] between two strings, compared code unit by code
    unit. *)
Definition date_ge (a b : JsObject) : bool :=
  match prop a "date", prop b "date" with
  | JStr da, JStr db => negb (String.ltb da db)
  | _, _ => false
  end.

Definition date_desc (a b : JsObject) : Prop := date_ge a b = true.

(** [a.date > b.date] between two strings. *)
Definition date_gt (a b : JsObject) : bool :=
  match prop a "date", prop b "date" with
  | JStr da, JStr db => String.ltb db da
  | _, _ => false
  end.

(** ** Sample content stores *)

(** Three posts, listed out of date order. *)
Definition three_posts : World := Reference.world
  [ ("/site/posts", Directory ["first.md"; "second.md"; "third.md"]);
    ("/site/posts/first.md",
      RegularFile (Reference.post_file
        ["title: First"; "date: " ++ Reference.quoted "2024-01-01"] "# Hi"));
    ("/site/posts/second.md",
      RegularFile (Reference.post_file
        ["title: Second"; "date: " ++ Reference.quoted "2024-03-01"] "text"));
    ("/site/posts/third.md",
      RegularFile (Reference.post_file
        ["title: Third"; "date: " ++ Reference.quoted "2024-02-01"] "more"));
    ("/site/about/about.md",
      RegularFile (Reference.post_file ["title: About"] "<div>me</div>")) ].

(** A directory holding [notes] next to [notes.md]. *)
Definition two_names : World := Reference.world
  [ ("/site/posts", Directory ["notes"; "notes.md"]);
    ("/site/posts/notes", RegularFile "plain text");
    ("/site/posts/notes.md",
      RegularFile (Reference.post_file
        ["title: Notes"; "date: " ++ Reference.quoted "2023-05-06"] "text")) ].

(** A post whose front matter declares an [id] of its own, and an about
    page whose front matter declares a [contentHtml]. *)
Definition own_id : World := Reference.world
  [ ("/site/posts", Directory ["hello.md"]);
    ("/site/posts/hello.md",
      RegularFile (Reference.post_file
        ["id: other"; "date: " ++ Reference.quoted "2022-01-28"] "text"));
    ("/site/about/about.md",
      RegularFile (Reference.post_file
        ["title: About"; "contentHtml: mine"] "text")) ].

(** A post whose front matter declares a [contentHtml] of its own. *)
Definition own_html : World := Reference.world
  [ ("/site/posts", Directory ["hello.md"]);
    ("/site/posts/hello.md",
      RegularFile (Reference.post_file
        ["title: Hello"; "contentHtml: mine"] "text")) ].

(** The post of the round trip: title [T], date [2024-01-01], body
    [# Hi]. *)
Definition round_trip : World := Reference.world
  [ ("/site/posts", Directory ["t.md"]);
    ("/site/posts/t.md",
      RegularFile (Reference.post_file
        ["title: T"; "date: " ++ Reference.quoted "2024-01-01"] "# Hi")) ].

(** The identifiers in a result of [getAllPostIds]. *)
Definition ids_of (paths : list StaticPath) : list string :=
  (λ p, id (params p)) <$> paths.

(** ** The pages that call the loader *)

(** pages/[id].tsx *)
Module PostPage.

(** [{ props: { postData } }] *)
Record Props : Type := { postData : JsObject }.
Record StaticProps : Type := { props : Props }.

(** [{ paths, fallback: false }] *)
Record StaticPaths : Type := { paths : list StaticPath; fallback : bool }.

(** The [params] handed in are those of a path declared by
    [getStaticPaths]; the function reads their [id]. *)
Definition getStaticProps `{RT : Runtime} (params : Params) : IO StaticProps :=
  postData ← getPostData (id params);
  mret {| props := {| postData := postData |} |}.

Definition getStaticPaths `{RT : Runtime} : IO StaticPaths :=
  paths ← getAllPostIds;
  mret {| paths := paths; fallback := false |}.

End PostPage.

(** pages/index.tsx *)
Module IndexPage.

(** [{ props: { allPostsData } }] *)
Record Props : Type := { allPostsData : list JsObject }.
Record StaticProps : Type := { props : Props }.

Definition getStaticProps `{RT : Runtime} : IO StaticProps :=
  allPostsData ← getSortedPostsData;
  mret {| props := {| allPostsData := allPostsData |} |}.

End IndexPage.

(** The about page *)
Module AboutPage.

(** [{ props: { aboutPageData } }] *)
Record Props : Type := { aboutPageData : JsObject }.
Record StaticProps : Type := { props : Props }.

Definition getStaticProps `{RT : Runtime} : IO StaticProps :=
  aboutPageData ← getAboutPageData;
  mret {| props := {| aboutPageData := aboutPageData |} |}.

End AboutPage.

(** ** What a computation touches *)

(** The event reads the file at [path], or reads nothing from disk. *)
Definition reads_at_most (path : string) (ev : Event) : Prop :=
  match ev with
  | EvReaddir _ => False
  | EvReadFile p => p = path
  | EvMatter _ | EvRemark _ _ => True
  end.

(** ** More sample content stores *)

(** A runtime whose renderer fails. *)
Definition failing_renderer : Runtime := {|
  process_cwd := "/site";
  path_join := Reference.join;
  matter := Reference.gray_matter;
  remark_process := λ _ _, Threw (RemarkError "plugin failed");
  lt_numeric := λ _ _, false
|}.

(** A posts directory with a subdirectory between two posts, a file that is
    no markdown file, and a post that repeats a key of its front matter. *)
Definition untidy : World := Reference.world
  [ ("/site/posts", Directory ["first.md"; "drafts"; "second.md"]);
    ("/site/posts/first.md",
      RegularFile (Reference.post_file
        ["title: First"; "date: " ++ Reference.quoted "2024-01-01"] "# Hi"));
    ("/site/posts/drafts", Directory ["idea.md"]);
    ("/site/posts/drafts/idea.md", RegularFile "an idea");
    ("/site/posts/second.md",
      RegularFile (Reference.post_file
        ["title: Second"; "date: " ++ Reference.quoted "2024-03-01"] "text"));
    ("/site/posts/twice.md",
      RegularFile (Reference.post_file ["title: A"; "title: B"] "text"));
    ("/site/posts/folder.md", Directory []);
    ("/site/about", Directory ["about.md"]);
    ("/site/about/about.md", Directory []) ].

(** A site without a posts directory and without an about page. *)
Definition bare : World := Reference.world [ ("/site", Directory []) ].

(** An about page that repeats a key of its front matter. *)
Definition broken_about : World := Reference.world
  [ ("/site/about/about.md",
      RegularFile (Reference.post_file ["title: A"; "title: B"] "text")) ].

(** The three posts again, the directory listing them in another order. *)
Definition three_posts_reordered : World :=
  {| nodes := <[ "/site/posts" :=
                   Directory ["third.md"; "first.md"; "second.md"] ]>
                (nodes three_posts) |}.

(** A site whose [about] is a regular file. *)
Definition about_is_file : World := Reference.world
  [ ("/site", Directory ["about"]);
    ("/site/about", RegularFile "not a directory") ].

(** * Theorems *)

(** ** The monad *)

Ltac unfold_io :=
  unfold mbind, mret, IO_bind, IO_ret, io_bind, io_ret, call in *; simpl in *.

Lemma read_only_ret {A} (a : A) : read_only (mret a).
Proof. by intros w. Qed.

Lemma read_only_call {A} (ev : Event) (r : Outcome A) : read_only (call ev r).
Proof. by intros w. Qed.

Lemma read_only_bind {A B} (m : IO A) (f : A → IO B) :
  read_only m → (∀ a, read_only (f a)) → read_only (m ≫= f).
Proof.
  intros Hm Hf w. unfold_io.
  destruct (outcome (m w)) as [a|e]; simpl; [|apply Hm].
  rewrite Hm. apply Hf.
Qed.

Lemma read_only_Array_map {A B} (f : A → IO B) (l : list A) :
  (∀ x, read_only (f x)) → read_only (Array_map f l).
Proof.
  intros Hf. induction l as [|x l IH]; simpl.
  - apply read_only_ret.
  - apply read_only_bind; [apply Hf|]. intros y.
    apply read_only_bind; [apply IH|]. intros ys. apply read_only_ret.
Qed.

Lemma never_renders_ret {A} (a : A) : never_renders (mret a).
Proof. intros w. constructor. Qed.

Lemma never_renders_bind {A B} (m : IO A) (f : A → IO B) :
  never_renders m → (∀ a, never_renders (f a)) → never_renders (m ≫= f).
Proof.
  intros Hm Hf w. unfold_io.
  destruct (outcome (m w)) as [a|e]; simpl; [|apply Hm].
  apply Forall_app. split; [apply Hm|apply Hf].
Qed.

Lemma never_renders_Array_map {A B} (f : A → IO B) (l : list A) :
  (∀ x, never_renders (f x)) → never_renders (Array_map f l).
Proof.
  intros Hf. induction l as [|x l IH]; simpl.
  - apply never_renders_ret.
  - apply never_renders_bind; [apply Hf|]. intros y.
    apply never_renders_bind; [apply IH|]. intros ys. apply never_renders_ret.
Qed.

(** What a successful [map] tells about each call of the callback, and
    back. *)
Lemma Array_map_Returned {A B} (f : A → IO B) (l : list A) w (ys : list B) :
  (∀ x, read_only (f x)) →
  outcome (Array_map f l w) = Returned ys ↔
  Forall2 (λ x y, outcome (f x w) = Returned y) l ys.
Proof.
  intros Hf. revert ys. induction l as [|x l IH]; intros ys; simpl.
  - split.
    + intros [= <-]. constructor.
    + by intros ->%Forall2_nil_inv_l.
  - unfold_io. rewrite Hf.
    destruct (outcome (f x w)) as [y|e] eqn:Hx; simpl.
    + rewrite (read_only_Array_map f l Hf).
      destruct (outcome (Array_map f l w)) as [ys'|e] eqn:Hl; simpl.
      * split.
        -- intros [= <-]. constructor; [done|]. by apply IH.
        -- intros (y' & ys'' & Hy & Hys & ->)%Forall2_cons_inv_l.
           apply IH in Hys. congruence.
      * split; [done|].
        intros (y' & ys'' & Hy & Hys & ->)%Forall2_cons_inv_l.
        apply IH in Hys. congruence.
    + split; [done|].
      intros (y' & ys'' & Hy & Hys & ->)%Forall2_cons_inv_l. congruence.
Qed.

(** ** Strings *)

Lemma length_append (a b : string) :
  String.length (a ++ b) = String.length a + String.length b.
Proof. induction a as [|c a IH]; simpl; [done|by rewrite IH]. Qed.

Lemma append_md_inj (p q : string) : p ++ ".md" = q ++ ".md" → p = q.
Proof.
  revert q. induction p as [|c p IH]; intros [|d q] H; simpl in H.
  - done.
  - apply (f_equal String.length) in H. simpl in H.
    rewrite length_append in H. simpl in H. lia.
  - apply (f_equal String.length) in H. simpl in H.
    rewrite length_append in H. simpl in H. lia.
  - injection H as -> H. f_equal. by apply IH.
Qed.

Lemma replace_md_append (p : string) : replace_md (p ++ ".md") = p.
Proof.
  induction p as [|c p IH]; [done|].
  change (replace_md (String c p ++ ".md"))
    with (if String.eqb (String c (p ++ ".md")) ".md" then ""
          else String c (replace_md (p ++ ".md"))).
  rewrite IH.
  destruct (String.eqb_spec (String c (p ++ ".md")) ".md") as [H|_]; [|done].
  apply (f_equal String.length) in H. simpl in H.
  rewrite length_append in H. simpl in H. lia.
Qed.

(** [replace_md] either drops a final [.md] or, when there is none, returns
    its argument. *)
Lemma replace_md_cases (s : string) :
  (∃ p, s = p ++ ".md" ∧ replace_md s = p) ∨
  ((∀ p, s ≠ p ++ ".md") ∧ replace_md s = s).
Proof.
  induction s as [|c s IH].
  - right. split; [|done]. by intros [|??].
  - destruct (String.eqb_spec (String c s) ".md") as [E|NE].
    + left. exists "". by rewrite E.
    + assert (replace_md (String c s) = String c (replace_md s)) as Hstep.
      { cbn [replace_md]. by destruct (String.eqb_spec (String c s) ".md"). }
      rewrite Hstep.
      destruct IH as [(p & -> & Hp)|[Hno Hid]].
      * left. exists (String c p). by rewrite Hp.
      * right. split; [|by rewrite Hid].
        intros [|d p] E; simpl in E; [done|].
        injection E as -> E. by apply (Hno p).
Qed.

Lemma ltb_asym (s t : string) : String.ltb s t = true → String.ltb t s = false.
Proof.
  unfold String.ltb. rewrite (String.compare_antisym t s).
  by destruct (String.compare s t).
Qed.

Lemma ltb_total (s t : string) :
  String.ltb s t = false → s ≠ t → String.ltb t s = true.
Proof.
  unfold String.ltb. rewrite (String.compare_antisym t s).
  destruct (String.compare s t) eqn:Hcmp; simpl; try done.
  intros _ Hne. by apply String.compare_eq_iff in Hcmp.
Qed.

(** ** Sorting *)

Lemma sort_insert_perm {A} (cmp : A → A → Z) (x : A) (l : list A) :
  sort_insert cmp x l ≡ₚ x :: l.
Proof.
  induction l as [|y l IH]; simpl; [done|].
  destruct (0 <? cmp x y)%Z; [|done].
  rewrite IH. apply Permutation_swap.
Qed.

Lemma Array_sort_perm {A} (cmp : A → A → Z) (l : list A) :
  Array_sort cmp l ≡ₚ l.
Proof.
  induction l as [|x l IH]; simpl; [done|].
  by rewrite sort_insert_perm, IH.
Qed.

Section LoaderTheory.
Context `{RT : Runtime}.

Lemma byDate_pos (a b : JsObject) (da db : string) :
  a !! "date" = Some (JStr da) → b !! "date" = Some (JStr db) →
  (0 <? byDate a b)%Z = String.ltb da db.
Proof.
  intros Ha Hb. unfold byDate, js_lt, prop. rewrite Ha, Hb. simpl.
  by destruct (String.ltb da db).
Qed.

Lemma date_desc_strings (a b : JsObject) (da db : string) :
  a !! "date" = Some (JStr da) → b !! "date" = Some (JStr db) →
  date_desc a b ↔ String.ltb da db = false.
Proof.
  intros Ha Hb. unfold date_desc, date_ge, prop. rewrite Ha, Hb. simpl.
  by destruct (String.ltb da db).
Qed.

Lemma sort_insert_HdRel {A} (R : A → A → Prop) cmp (x y : A) (l : list A) :
  R y x → HdRel R y l → HdRel R y (sort_insert cmp x l).
Proof.
  intros Hyx Hhd. destruct l as [|z l]; simpl; [by constructor|].
  destruct (0 <? cmp x z)%Z; constructor; [|done]. by inversion Hhd.
Qed.

Lemma sort_insert_sorted (x : JsObject) (l : list JsObject) :
  Forall (λ p, ∃ d, p !! "date" = Some (JStr d)) (x :: l) →
  Sorted date_desc l → Sorted date_desc (sort_insert byDate x l).
Proof.
  intros Hdates Hsorted. induction Hsorted as [|y l Hl IH Hhd].
  - repeat constructor.
  - apply Forall_cons in Hdates as [[dx Hx] Hdates].
    pose proof Hdates as [[dy Hy] Hrest]%Forall_cons.
    cbn [sort_insert]. rewrite (byDate_pos x y dx dy Hx Hy).
    destruct (String.ltb dx dy) eqn:Hlt.
    + constructor.
      * apply IH. by constructor; [exists dx|].
      * apply sort_insert_HdRel; [|done].
        apply (date_desc_strings y x dy dx Hy Hx). by apply ltb_asym.
    + constructor; [by constructor|]. constructor.
      by apply (date_desc_strings x y dx dy Hx Hy).
Qed.

(** With no date twice in the list, descending is strictly descending. *)
Lemma sorted_strict (l : list JsObject) :
  Sorted date_desc l → NoDup ((λ post, prop post "date") <$> l) →
  Sorted (λ a b, date_gt a b = true) l.
Proof.
  induction 1 as [|a l Hl IH Hhd]; intros Hnodup; [constructor|].
  apply NoDup_cons in Hnodup as [Hnotin Hnodup].
  constructor; [by apply IH|].
  destruct Hhd as [|b l Hab]; constructor.
  unfold date_desc, date_ge in Hab. unfold date_gt.
  destruct (prop a "date") as [| | | |da] eqn:Ha; try done.
  destruct (prop b "date") as [| | | |db] eqn:Hb; try done.
  apply ltb_total.
  - by destruct (String.ltb da db).
  - intros ->. apply Hnotin. apply list_elem_of_here.
Qed.

Lemma Array_sort_sorted (l : list JsObject) :
  Forall (λ p, ∃ d, p !! "date" = Some (JStr d)) l →
  Sorted date_desc (Array_sort byDate l).
Proof.
  induction l as [|x l IH]; intros Hdates; simpl; [constructor|].
  apply sort_insert_sorted.
  - apply Forall_cons in Hdates as [Hx Hl]. constructor; [done|].
    by rewrite Array_sort_perm.
  - apply IH. by apply Forall_cons in Hdates as [_ ?].
Qed.

(** *** The primitives and the operations are read-only *)

Lemma read_only_readFileSync path : read_only (readFileSync path).
Proof. by intros w. Qed.

Lemma read_only_readdirSync path : read_only (readdirSync path).
Proof. by intros w. Qed.

Create HintDb loader_frame.
#[local] Hint Resolve read_only_ret read_only_call read_only_readFileSync
  read_only_readdirSync : loader_frame.

Ltac frame :=
  repeat first
    [ apply read_only_bind; [|intros ?]
    | apply read_only_Array_map; intros ?
    | solve [auto with loader_frame] ].

Lemma read_only_postSummary fileName : read_only (postSummary fileName).
Proof. unfold postSummary. frame. Qed.

Lemma read_only_getSortedPostsData : read_only getSortedPostsData.
Proof.
  unfold getSortedPostsData.
  apply read_only_bind; [apply read_only_readdirSync|intros fileNames].
  apply read_only_bind; [|intros ?; apply read_only_ret].
  apply read_only_Array_map, read_only_postSummary.
Qed.




(** *** Running the operations *)

Lemma postSummary_run w fileName text m :
  nodes w !! path_join postsDirectory fileName = Some (RegularFile text) →
  matter text = Returned m →
  postSummary fileName w =
    MkRun (Returned (spread (data m) {[ "id" := JStr (replace_md fileName) ]}))
          [EvReadFile (path_join postsDirectory fileName); EvMatter text] w.
Proof.
  intros Hfile Hm. unfold postSummary, readFileSync. unfold_io.
  rewrite Hfile. simpl. by rewrite Hm.
Qed.

Lemma postSummary_Returned w fileName record :
  outcome (postSummary fileName w) = Returned record →
  ∃ text m,
    nodes w !! path_join postsDirectory fileName = Some (RegularFile text) ∧
    matter text = Returned m ∧
    record = spread (data m) {[ "id" := JStr (replace_md fileName) ]}.
Proof.
  unfold postSummary, readFileSync. unfold_io.
  destruct (nodes w !! path_join postsDirectory fileName) as [[text|?]|] eqn:Hfile;
    simpl; [|done..].
  destruct (matter text) as [m|?] eqn:Hm; simpl; [|done].
  intros [= <-]. by exists text, m.
Qed.

Lemma getPostData_run w i text m html :
  nodes w !! path_join postsDirectory (i ++ ".md") = Some (RegularFile text) →
  matter text = Returned m →
  remark_process postPlugins (content m) = Returned html →
  getPostData i w =
    MkRun (Returned (spread (data m)
                       (<[ "contentHtml" := JStr html ]> {[ "id" := JStr i ]})))
          [EvReadFile (path_join postsDirectory (i ++ ".md")); EvMatter text;
           EvRemark postPlugins (content m)] w.
Proof.
  intros Hfile Hm Hhtml. unfold getPostData, readFileSync. unfold_io.
  rewrite Hfile. simpl. rewrite Hm. simpl. by rewrite Hhtml.
Qed.

Lemma getAboutPageData_run w text m html :
  nodes w !! path_join aboutPageDirectory "about.md" = Some (RegularFile text) →
  matter text = Returned m →
  remark_process aboutPlugins (content m) = Returned html →
  getAboutPageData w =
    MkRun (Returned (spread (data m) {[ "contentHtml" := JStr html ]}))
          [EvReadFile (path_join aboutPageDirectory "about.md"); EvMatter text;
           EvRemark aboutPlugins (content m)] w.
Proof.
  intros Hfile Hm Hhtml. unfold getAboutPageData, readFileSync. unfold_io.
  rewrite Hfile. simpl. rewrite Hm. simpl. by rewrite Hhtml.
Qed.

Lemma getSortedPostsData_Returned w posts :
  outcome (getSortedPostsData w) = Returned posts ↔
  ∃ fileNames allPostsData,
    nodes w !! postsDirectory = Some (Directory fileNames) ∧
    Forall2 (λ fileName record, outcome (postSummary fileName w) = Returned record)
            fileNames allPostsData ∧
    posts = Array_sort byDate allPostsData.
Proof.
  unfold getSortedPostsData, readdirSync. unfold_io.
  destruct (nodes w !! postsDirectory) as [[?|fileNames]|] eqn:Hdir; simpl;
    try (split; [done|by intros (? & ? & [=] & _)]).
  destruct (outcome (Array_map postSummary fileNames w)) as [all|e] eqn:Hmap;
    simpl.
  - apply Array_map_Returned in Hmap; [|apply read_only_postSummary].
    split.
    + intros [= <-]. by exists fileNames, all.
    + intros (? & all' & [= <-] & Hall & ->).
      apply Array_map_Returned in Hall; [|apply read_only_postSummary].
      apply Array_map_Returned in Hmap; [|apply read_only_postSummary].
      congruence.
  - split; [done|]. intros (? & all' & [= <-] & Hall & ->).
    apply Array_map_Returned in Hall; [|apply read_only_postSummary].
    congruence.
Qed.

Lemma getAllPostIds_run w fileNames :
  nodes w !! postsDirectory = Some (Directory fileNames) →
  getAllPostIds w =
    MkRun (Returned ((λ fileName,
                        {| params := {| id := replace_md fileName |} |})
                       <$> fileNames))
          [EvReaddir postsDirectory] w.
Proof.
  intros Hdir. unfold getAllPostIds, readdirSync. unfold_io. by rewrite Hdir.
Qed.

End LoaderTheory.

(** * The claims *)

(** ** Listing the posts *)

(** C1. When the posts directory can be listed and every file in it parses
    to front matter whose [date] is a string, the dates being pairwise
    distinct, [getSortedPostsData] returns the posts sorted by [date],
    descending, under the comparison of strings: every adjacent pair
    [(a, b)] of the result has [a.date >= b.date], and indeed
    [a.date > b.date].  The result holds the dates of the files and no
    others. *)
Theorem getSortedPostsData_sorted `{RT : Runtime}
    (w : World) (fileNames dates : list string) :
  nodes w !! postsDirectory = Some (Directory fileNames) →
  Forall2 (λ fileName d, ∃ text m,
             nodes w !! path_join postsDirectory fileName
               = Some (RegularFile text) ∧
             matter text = Returned m ∧
             data m !! "date" = Some (JStr d)) fileNames dates →
  NoDup dates →
  ∃ posts,
    outcome (getSortedPostsData w) = Returned posts ∧
    Sorted date_desc posts ∧
    Sorted (λ a b, date_gt a b = true) posts ∧
    (λ post, prop post "date") <$> posts ≡ₚ JStr <$> dates.
Proof.
  intros Hdir Hfiles Hnodup.
  assert (∃ records,
    Forall2 (λ fileName record,
               outcome (postSummary fileName w) = Returned record)
            fileNames records ∧
    Forall2 (λ record d, record !! "date" = Some (JStr d)) records dates)
    as (records & Hall & Hdates).
  { clear Hdir Hnodup.
    induction Hfiles as [|fileName d fileNames dates Hf _ IH].
    - exists []. split; constructor.
    - destruct Hf as (text & m & Hfile & Hm & Hd).
      destruct IH as (records & Hall & Hdates).
      exists (spread (data m) {[ "id" := JStr (replace_md fileName) ]}
                :: records).
      split; constructor; try done.
      + by rewrite (postSummary_run w fileName text m).
      + unfold spread. by apply lookup_union_Some_l. }
  assert (Sorted date_desc (Array_sort byDate records)) as Hsorted.
  { apply Array_sort_sorted.
    clear Hall Hfiles Hnodup.
    induction Hdates as [|record d records dates Hd _ IH]; constructor.
    - by exists d.
    - done. }
  assert ((λ post, prop post "date") <$> Array_sort byDate records
            ≡ₚ JStr <$> dates) as Hperm.
  { rewrite Array_sort_perm.
    clear Hall Hfiles Hnodup Hsorted.
    induction Hdates as [|record d records dates Hd _ IH]; [done|].
    simpl. unfold prop at 1. rewrite Hd. simpl. by rewrite IH. }
  exists (Array_sort byDate records). split; [|split; [|split]]; try done.
  - apply getSortedPostsData_Returned. by exists fileNames, records.
  - apply sorted_strict; [done|]. rewrite Hperm.
    apply NoDup_fmap_2; [|done]. by intros ?? [= ->].
Qed.

(** The scenario of C1: posts dated 2024-01-01, 2024-03-01 and 2024-02-01
    come back in the order 2024-03-01, 2024-02-01, 2024-01-01. *)
Example three_posts_order :
  ∃ posts,
    outcome (getSortedPostsData (RT := Reference.runtime) three_posts)
      = Returned posts ∧
    (λ post, prop post "date") <$> posts
      = [JStr "2024-03-01"; JStr "2024-02-01"; JStr "2024-01-01"].
Proof. eexists. split; vm_compute; reflexivity. Qed.

Lemma getSortedPostsData_sorted_witness :
  ∃ posts,
    outcome (getSortedPostsData (RT := Reference.runtime) three_posts)
      = Returned posts ∧
    Sorted date_desc posts ∧
    Sorted (λ a b, date_gt a b = true) posts ∧
    (λ post, prop post "date") <$> posts
      ≡ₚ [JStr "2024-01-01"; JStr "2024-03-01"; JStr "2024-02-01"].
Proof.
  apply (getSortedPostsData_sorted (RT := Reference.runtime) three_posts
           ["first.md"; "second.md"; "third.md"]
           ["2024-01-01"; "2024-03-01"; "2024-02-01"]).
  - vm_compute. reflexivity.
  - repeat constructor.
    + eexists _, _. split; [vm_compute; reflexivity|].
      split; vm_compute; reflexivity.
    + eexists _, _. split; [vm_compute; reflexivity|].
      split; vm_compute; reflexivity.
    + eexists _, _. split; [vm_compute; reflexivity|].
      split; vm_compute; reflexivity.
  - refine (bool_decide_unpack (NoDup _) _). vm_compute. exact I.
Defined.

(** ** The identifiers of the posts *)

(** Two names of one directory are sent to the same identifier only when
    one of them is the other followed by [.md]. *)
Lemma replace_md_inj_on (fileNames : list string) :
  (∀ f, f ∈ fileNames → f ++ ".md" ∈ fileNames → ∃ p, f = p ++ ".md") →
  ∀ x y, x ∈ fileNames → y ∈ fileNames →
         replace_md x = replace_md y → x = y.
Proof.
  intros Hext x y Hx Hy Heq.
  destruct (replace_md_cases x) as [(p & -> & Hp)|[Hnx Hidx]],
           (replace_md_cases y) as [(q & -> & Hq)|[Hny Hidy]].
  - congruence.
  - rewrite Hp, Hidy in Heq. subst p.
    destruct (Hext y Hy Hx) as [p' ->]. by destruct (Hny p').
  - rewrite Hq, Hidx in Heq. subst q.
    destruct (Hext x Hx Hy) as [p' ->]. by destruct (Hnx p').
  - congruence.
Qed.

(** C2, as amended.  [getAllPostIds] returns one identifier per name in the
    posts directory, in the order of the listing, each the name with a final
    [.md] removed.  The identifiers are free of duplicates when the names
    are and the directory does not hold, next to a name without the
    extension, the same name with it. *)
Theorem getAllPostIds_ids `{RT : Runtime} (w : World) (fileNames : list string) :
  nodes w !! postsDirectory = Some (Directory fileNames) →
  ∃ paths,
    outcome (getAllPostIds w) = Returned paths ∧
    length paths = length fileNames ∧
    ids_of paths = replace_md <$> fileNames ∧
    (NoDup fileNames →
     (∀ f, f ∈ fileNames → f ++ ".md" ∈ fileNames → ∃ p, f = p ++ ".md") →
     NoDup (ids_of paths)).
Proof.
  intros Hdir. rewrite (getAllPostIds_run w fileNames Hdir). simpl.
  eexists. split; [done|].
  assert (ids_of ((λ fileName, {| params := {| id := replace_md fileName |} |})
                    <$> fileNames) = replace_md <$> fileNames) as Hids.
  { unfold ids_of. rewrite <- list_fmap_compose. done. }
  rewrite Hids. split; [by rewrite length_fmap|]. split; [done|].
  intros Hnodup Hext.
  apply NoDup_fmap_2_strong; [|done]. by apply replace_md_inj_on.
Qed.

Lemma getAllPostIds_ids_witness :
  ∃ paths,
    outcome (getAllPostIds (RT := Reference.runtime) three_posts)
      = Returned paths ∧
    length paths = 3 ∧
    ids_of paths = ["first"; "second"; "third"] ∧
    NoDup (ids_of paths).
Proof.
  destruct (getAllPostIds_ids (RT := Reference.runtime) three_posts
              ["first.md"; "second.md"; "third.md"])
    as (paths & Hout & Hlen & Hids & Hnodup).
  { vm_compute. reflexivity. }
  exists paths. split; [done|]. split; [done|]. split; [done|].
  apply Hnodup.
  - refine (bool_decide_unpack (NoDup _) _). vm_compute. exact I.
  - intros f Hf _.
    repeat (apply elem_of_cons in Hf as [->|Hf]);
      [by exists "first"|by exists "second"|by exists "third"|].
    by apply elem_of_nil in Hf.
Defined.

(** C2 as the specification has it fails: the names [notes] and [notes.md]
    are different, and both posts get the identifier [notes]. *)
Lemma getAllPostIds_duplicate_ids :
  ∃ fileNames paths,
    nodes two_names !! postsDirectory (RT := Reference.runtime)
      = Some (Directory fileNames) ∧
    NoDup fileNames ∧
    outcome (getAllPostIds (RT := Reference.runtime) two_names)
      = Returned paths ∧
    ids_of paths = ["notes"; "notes"] ∧
    ¬ NoDup (ids_of paths).
Proof.
  exists ["notes"; "notes.md"]. eexists.
  split; [vm_compute; reflexivity|].
  split; [refine (bool_decide_unpack (NoDup _) _); vm_compute; exact I|].
  split; [vm_compute; reflexivity|].
  split; [vm_compute; reflexivity|].
  intros Hnodup. apply NoDup_cons in Hnodup as [Hnotin _].
  apply Hnotin. vm_compute. left.
Qed.

(** ** Loading one post *)

(** C4, as amended.  [getPostData] fails with whatever error
    [readFileSync] throws at the path its identifier resolves to: nothing
    is parsed or rendered, no record is returned, and nothing catches the
    error on the way to the caller.  When that path names nothing in the
    content store, the error is file-not-found ([ENOENT]), or [ENOTDIR]
    when a component of the path is a regular file.  The limits the file
    system puts on paths are not modelled, and this part is stated for
    paths within them. *)
Theorem getPostData_missing `{RT : Runtime} (w : World) (i : string) :
  (∀ e,
     outcome (readFileSync (path_join postsDirectory (i ++ ".md")) w)
       = Threw e →
     outcome (getPostData i w) = Threw e ∧
     trace (getPostData i w)
       = [EvReadFile (path_join postsDirectory (i ++ ".md"))] ∧
     ∀ record, outcome (getPostData i w) ≠ Returned record) ∧
  (nodes w !! path_join postsDirectory (i ++ ".md") = None →
   within_limits (path_join postsDirectory (i ++ ".md")) = true →
   outcome (getPostData i w)
     = Threw (if below_file w (path_join postsDirectory (i ++ ".md"))
              then ENOTDIR (path_join postsDirectory (i ++ ".md"))
              else ENOENT (path_join postsDirectory (i ++ ".md")))).
Proof.
  split.
  - intros e Hread. unfold getPostData.
    unfold mbind, IO_bind, io_bind. rewrite Hread.
    assert (trace (readFileSync (path_join postsDirectory (i ++ ".md")) w)
              = [EvReadFile (path_join postsDirectory (i ++ ".md"))])
      as -> by done.
    by repeat split.
  - intros Hnone _. unfold getPostData, readFileSync. unfold_io.
    by rewrite Hnone.
Qed.

Lemma getPostData_missing_witness :
  (outcome (getPostData (RT := Reference.runtime) "nonexistent" three_posts)
     = Threw (ENOENT "/site/posts/nonexistent.md") ∧
   trace (getPostData (RT := Reference.runtime) "nonexistent" three_posts)
     = [EvReadFile "/site/posts/nonexistent.md"] ∧
   ∀ record,
     outcome (getPostData (RT := Reference.runtime) "nonexistent" three_posts)
       ≠ Returned record) ∧
  outcome (getPostData (RT := Reference.runtime) "nonexistent" three_posts)
    = Threw (ENOENT "/site/posts/nonexistent.md") ∧
  outcome (getPostData (RT := Reference.runtime) "first.md/x" three_posts)
    = Threw (ENOTDIR "/site/posts/first.md/x.md").
Proof.
  split; [|split].
  - apply (proj1 (getPostData_missing (RT := Reference.runtime) three_posts
                    "nonexistent")).
    vm_compute. reflexivity.
  - apply (proj2 (getPostData_missing (RT := Reference.runtime) three_posts
                    "nonexistent")); vm_compute; reflexivity.
  - apply (proj2 (getPostData_missing (RT := Reference.runtime) three_posts
                    "first.md/x")); vm_compute; reflexivity.
Defined.

(** C4 as the specification has it fails: [../about/about] names no file
    of the posts directory, and [getPostData] does not fail on it: the
    path it resolves to is the about page, which is loaded like a post. *)
Lemma getPostData_outside_posts :
  ∃ fileNames record,
    nodes three_posts !! postsDirectory (RT := Reference.runtime)
      = Some (Directory fileNames) ∧
    ("../about/about.md" ∉ fileNames) ∧
    ("../about/about" ∉ replace_md <$> fileNames) ∧
    outcome (getPostData (RT := Reference.runtime) "../about/about"
               three_posts) = Returned record ∧
    record !! "title" = Some (JStr "About") ∧
    record !! "id" = Some (JStr "../about/about").
Proof.
  exists ["first.md"; "second.md"; "third.md"]. eexists.
  split; [vm_compute; reflexivity|].
  split; [apply (bool_decide_unpack _); vm_compute; exact I|].
  split; [apply (bool_decide_unpack _); vm_compute; exact I|].
  split; [vm_compute; reflexivity|].
  split; vm_compute; reflexivity.
Qed.

(** C3, as amended.  For a name of the posts directory that ends in [.md]
    and whose file is read, parsed and rendered without error, the name with
    [.md] removed is among the identifiers [getAllPostIds] returns, and
    [getPostData] at that identifier returns a record.  The [id] field of
    the record is the identifier, unless the front matter declares an [id],
    which is then the field's value. *)
Theorem getPostData_of_listed_id `{RT : Runtime}
    (w : World) (fileNames : list string) (fileName text : string)
    (m : GrayMatterFile) (html : string) :
  nodes w !! postsDirectory = Some (Directory fileNames) →
  fileName ∈ fileNames →
  (∃ stem, fileName = stem ++ ".md") →
  nodes w !! path_join postsDirectory fileName = Some (RegularFile text) →
  matter text = Returned m →
  remark_process postPlugins (content m) = Returned html →
  ∃ paths record,
    outcome (getAllPostIds w) = Returned paths ∧
    replace_md fileName ∈ ids_of paths ∧
    outcome (getPostData (replace_md fileName) w) = Returned record ∧
    record !! "id"
      = Some (default (JStr (replace_md fileName)) (data m !! "id")).
Proof.
  intros Hdir Hin [stem ->] Hfile Hm Hhtml.
  rewrite replace_md_append.
  rewrite (getAllPostIds_run w fileNames Hdir).
  rewrite (getPostData_run w stem text m html Hfile Hm Hhtml). simpl.
  eexists _, _. split; [done|]. split; [|split; [done|]].
  - unfold ids_of. rewrite <- list_fmap_compose.
    apply list_elem_of_fmap. exists (stem ++ ".md"). split; [|done].
    simpl. by rewrite replace_md_append.
  - unfold spread. rewrite lookup_union.
    destruct (data m !! "id") as [v|]; simpl.
    + by rewrite union_Some_l.
    + rewrite left_id_L; [|apply _..]. by simplify_map_eq.
Qed.

Lemma getPostData_of_listed_id_witness :
  ∃ paths record,
    outcome (getAllPostIds (RT := Reference.runtime) three_posts)
      = Returned paths ∧
    "first" ∈ ids_of paths ∧
    outcome (getPostData (RT := Reference.runtime) "first" three_posts)
      = Returned record ∧
    record !! "id" = Some (JStr "first").
Proof.
  destruct (getPostData_of_listed_id (RT := Reference.runtime) three_posts
           ["first.md"; "second.md"; "third.md"] "first.md"
           (Reference.post_file
              ["title: First"; "date: " ++ Reference.quoted "2024-01-01"]
              "# Hi")
           {| data := {[ "title" := JStr "First";
                         "date" := JStr "2024-01-01" ]};
              content := "# Hi" |}
           (Reference.line "<h1>Hi</h1>"))
    as (paths & record & Hpaths & Hin & Hrecord & Hid).
  - vm_compute. reflexivity.
  - apply list_elem_of_here.
  - by exists "first".
  - vm_compute. reflexivity.
  - vm_compute. reflexivity.
  - vm_compute. reflexivity.
  - exists paths, record.
    split; [exact Hpaths|]. split; [exact Hin|]. split; [exact Hrecord|].
    exact Hid.
Defined.

(** C3 as the specification has it fails: [hello.md] declares [id: other]
    in its front matter, [getAllPostIds] returns [hello], and the record
    [getPostData] returns for [hello] has [other] in its [id] field. *)
Lemma getPostData_id_overwritten :
  ∃ paths record,
    outcome (getAllPostIds (RT := Reference.runtime) own_id)
      = Returned paths ∧
    "hello" ∈ ids_of paths ∧
    outcome (getPostData (RT := Reference.runtime) "hello" own_id)
      = Returned record ∧
    record !! "id" = Some (JStr "other") ∧
    record !! "id" ≠ Some (JStr "hello").
Proof.
  eexists _, _. split; [vm_compute; reflexivity|].
  split; [apply list_elem_of_here|].
  split; [vm_compute; reflexivity|].
  split; [vm_compute; reflexivity|].
  vm_compute. discriminate.
Qed.

Lemma lookup_spread (src target : JsObject) (k : string) :
  spread src target !! k
    = match src !! k with Some v => Some v | None => target !! k end.
Proof.
  unfold spread. rewrite lookup_union.
  destruct (src !! k), (target !! k); done.
Qed.

(** Every field of the source of a spread is a field of the result. *)
Lemma spread_source (src target : JsObject) : src ⊆ spread src target.
Proof. apply map_union_subseteq_l. Qed.

(** C6, as amended.  For an identifier whose file is read, parsed and
    rendered without error, [getPostData] reads the file at the identifier
    followed by [.md] in the posts directory, parses its front matter, and
    renders the body with sanitization switched off and syntax highlighting
    on.  The record it returns holds every front-matter field; its [id] is
    the identifier and its [contentHtml] the rendered body, each of the two
    unless the front matter declares that key itself. *)
Theorem getPostData_pipeline `{RT : Runtime}
    (w : World) (i text : string) (m : GrayMatterFile) (html : string) :
  nodes w !! path_join postsDirectory (i ++ ".md") = Some (RegularFile text) →
  matter text = Returned m →
  remark_process postPlugins (content m) = Returned html →
  ∃ record,
    outcome (getPostData i w) = Returned record ∧
    trace (getPostData i w)
      = [EvReadFile (path_join postsDirectory (i ++ ".md")); EvMatter text;
         EvRemark postPlugins (content m)] ∧
    raw_html_passes postPlugins = true ∧
    prism_enabled postPlugins = true ∧
    data m ⊆ record ∧
    record !! "id" = Some (default (JStr i) (data m !! "id")) ∧
    record !! "contentHtml"
      = Some (default (JStr html) (data m !! "contentHtml")).
Proof.
  intros Hfile Hm Hhtml.
  rewrite (getPostData_run w i text m html Hfile Hm Hhtml). simpl.
  eexists. split; [done|]. split; [done|]. split; [done|]. split; [done|].
  split; [apply spread_source|].
  rewrite !lookup_spread.
  split.
  - destruct (data m !! "id"); [done|]. by simplify_map_eq.
  - destruct (data m !! "contentHtml"); [done|]. by simplify_map_eq.
Qed.

Lemma getPostData_pipeline_witness :
  ∃ record,
    outcome (getPostData (RT := Reference.runtime) "first" three_posts)
      = Returned record ∧
    trace (getPostData (RT := Reference.runtime) "first" three_posts)
      = [EvReadFile "/site/posts/first.md";
         EvMatter (Reference.post_file
           ["title: First"; "date: " ++ Reference.quoted "2024-01-01"]
           "# Hi");
         EvRemark postPlugins "# Hi"] ∧
    raw_html_passes postPlugins = true ∧
    prism_enabled postPlugins = true ∧
    ({[ "title" := JStr "First"; "date" := JStr "2024-01-01" ]} : JsObject)
      ⊆ record ∧
    record !! "id" = Some (JStr "first") ∧
    record !! "contentHtml" = Some (JStr (Reference.line "<h1>Hi</h1>")).
Proof.
  destruct (getPostData_pipeline (RT := Reference.runtime) three_posts "first"
           (Reference.post_file
              ["title: First"; "date: " ++ Reference.quoted "2024-01-01"]
              "# Hi")
           {| data := {[ "title" := JStr "First";
                         "date" := JStr "2024-01-01" ]};
              content := "# Hi" |}
           (Reference.line "<h1>Hi</h1>"))
    as (record & Hrecord).
  - vm_compute. reflexivity.
  - vm_compute. reflexivity.
  - vm_compute. reflexivity.
  - exists record. exact Hrecord.
Defined.

(** C6 as the specification has it fails: [hello.md] declares
    [contentHtml: mine] in its front matter, and the record returned for
    [hello] holds [mine], not the rendered body, in [contentHtml]. *)
Lemma getPostData_contentHtml_overwritten :
  ∃ html record,
    remark_process (Runtime := Reference.runtime) postPlugins "text"
      = Returned html ∧
    trace (getPostData (RT := Reference.runtime) "hello" own_html)
      = [EvReadFile "/site/posts/hello.md";
         EvMatter (Reference.post_file
                     ["title: Hello"; "contentHtml: mine"] "text");
         EvRemark postPlugins "text"] ∧
    outcome (getPostData (RT := Reference.runtime) "hello" own_html)
      = Returned record ∧
    record !! "contentHtml" = Some (JStr "mine") ∧
    record !! "contentHtml" ≠ Some (JStr html).
Proof.
  eexists _, _. split; [vm_compute; reflexivity|].
  split; [vm_compute; reflexivity|].
  split; [vm_compute; reflexivity|].
  split; [vm_compute; reflexivity|].
  vm_compute. discriminate.
Qed.

(** C8. A post file whose front matter is [{title: "T", date:
    "2024-01-01"}] and whose body is [# Hi], the renderer turning that body
    into HTML with an [h1] element around [Hi]: [getPostData] returns a
    record whose [contentHtml] contains [<h1>Hi</h1>], whose [title] is [T]
    and whose [date] is [2024-01-01]. *)
Theorem getPostData_round_trip `{RT : Runtime}
    (w : World) (i text html : string) :
  nodes w !! path_join postsDirectory (i ++ ".md") = Some (RegularFile text) →
  matter text
    = Returned {| data := {[ "title" := JStr "T";
                             "date" := JStr "2024-01-01" ]};
                  content := "# Hi" |} →
  remark_process postPlugins "# Hi" = Returned html →
  (∃ before rest, html = before ++ "<h1>Hi</h1>" ++ rest) →
  ∃ record,
    outcome (getPostData i w) = Returned record ∧
    (∃ before rest,
       prop record "contentHtml" = JStr (before ++ "<h1>Hi</h1>" ++ rest)) ∧
    prop record "title" = JStr "T" ∧
    prop record "date" = JStr "2024-01-01".
Proof.
  intros Hfile Hm Hhtml (before & rest & ->).
  rewrite (getPostData_run w i text _ _ Hfile Hm Hhtml). simpl.
  eexists. split; [done|]. unfold prop. rewrite !lookup_spread.
  split; [|split].
  - exists before, rest. by simplify_map_eq.
  - by simplify_map_eq.
  - by simplify_map_eq.
Qed.

Lemma getPostData_round_trip_witness :
  ∃ record,
    outcome (getPostData (RT := Reference.runtime) "t" round_trip)
      = Returned record ∧
    (∃ before rest,
       prop record "contentHtml" = JStr (before ++ "<h1>Hi</h1>" ++ rest)) ∧
    prop record "title" = JStr "T" ∧
    prop record "date" = JStr "2024-01-01".
Proof.
  apply (getPostData_round_trip (RT := Reference.runtime) round_trip "t"
           (Reference.post_file
              ["title: T"; "date: " ++ Reference.quoted "2024-01-01"] "# Hi")
           (Reference.line "<h1>Hi</h1>")).
  - vm_compute. reflexivity.
  - vm_compute. reflexivity.
  - vm_compute. reflexivity.
  - exists "", (String Reference.LF ""). vm_compute. reflexivity.
Defined.

(** The round trip on the reference runtime, evaluated. *)
Example round_trip_record :
  outcome (getPostData (RT := Reference.runtime) "t" round_trip)
    = Returned {[ "id" := JStr "t";
                  "contentHtml" := JStr (Reference.line "<h1>Hi</h1>");
                  "title" := JStr "T";
                  "date" := JStr "2024-01-01" ]}.
Proof. vm_compute. reflexivity. Qed.

(** ** Precedence of the front matter *)

(** C10. In the records [getPostData], [getSortedPostsData] and
    [getAboutPageData] build, the front-matter fields are spread after the
    derived ones: every key the front matter declares, [id] and
    [contentHtml] among them, has the front matter's value in the record,
    in place of the derived identifier or the rendered HTML. *)
Theorem front_matter_takes_precedence `{RT : Runtime} (w : World) :
  (∀ i text m html k v,
     nodes w !! path_join postsDirectory (i ++ ".md")
       = Some (RegularFile text) →
     matter text = Returned m →
     remark_process postPlugins (content m) = Returned html →
     data m !! k = Some v →
     ∃ record,
       outcome (getPostData i w) = Returned record ∧ record !! k = Some v) ∧
  (∀ posts fileNames fileName text m k v,
     outcome (getSortedPostsData w) = Returned posts →
     nodes w !! postsDirectory = Some (Directory fileNames) →
     fileName ∈ fileNames →
     nodes w !! path_join postsDirectory fileName = Some (RegularFile text) →
     matter text = Returned m →
     data m !! k = Some v →
     ∃ record,
       record ∈ posts ∧
       record = spread (data m) {[ "id" := JStr (replace_md fileName) ]} ∧
       record !! k = Some v) ∧
  (∀ text m html k v,
     nodes w !! path_join aboutPageDirectory "about.md"
       = Some (RegularFile text) →
     matter text = Returned m →
     remark_process aboutPlugins (content m) = Returned html →
     data m !! k = Some v →
     ∃ record,
       outcome (getAboutPageData w) = Returned record ∧ record !! k = Some v).
Proof.
  split; [|split].
  - intros i text m html k v Hfile Hm Hhtml Hk.
    rewrite (getPostData_run w i text m html Hfile Hm Hhtml). simpl.
    eexists. split; [done|]. by rewrite lookup_spread, Hk.
  - intros posts fileNames fileName text m k v Hposts Hdir Hin Hfile Hm Hk.
    apply getSortedPostsData_Returned in Hposts
      as (fileNames' & records & Hdir' & Hall & ->).
    assert (fileNames' = fileNames) as -> by congruence.
    apply list_elem_of_lookup in Hin as [n Hn].
    destruct (Forall2_lookup_l _ _ _ _ _ Hall Hn) as (record & Hrec & Hrun).
    rewrite (postSummary_run w fileName text m Hfile Hm) in Hrun.
    simpl in Hrun. injection Hrun as <-.
    eexists. split; [|split; [done|]].
    + rewrite Array_sort_perm. by eapply list_elem_of_lookup_2.
    + by rewrite lookup_spread, Hk.
  - intros text m html k v Hfile Hm Hhtml Hk.
    rewrite (getAboutPageData_run w text m html Hfile Hm Hhtml). simpl.
    eexists. split; [done|]. by rewrite lookup_spread, Hk.
Qed.

Lemma front_matter_takes_precedence_witness :
  (∃ record,
     outcome (getPostData (RT := Reference.runtime) "hello" own_id)
       = Returned record ∧
     record !! "id" = Some (JStr "other")) ∧
  (∃ record posts,
     outcome (getSortedPostsData (RT := Reference.runtime) own_id)
       = Returned posts ∧
     record ∈ posts ∧ record !! "id" = Some (JStr "other")) ∧
  (∃ record,
     outcome (getAboutPageData (RT := Reference.runtime) own_id)
       = Returned record ∧
     record !! "contentHtml" = Some (JStr "mine")).
Proof.
  destruct (front_matter_takes_precedence (RT := Reference.runtime) own_id)
    as (Hpost & Hlist & Habout).
  split; [|split].
  - apply (Hpost "hello"
             (Reference.post_file
                ["id: other"; "date: " ++ Reference.quoted "2022-01-28"]
                "text")
             {| data := {[ "id" := JStr "other";
                           "date" := JStr "2022-01-28" ]};
                content := "text" |}
             (Reference.line "<p>text</p>") "id" (JStr "other"));
      vm_compute; reflexivity.
  - destruct (Hlist
             [{[ "id" := JStr "other"; "date" := JStr "2022-01-28" ]}]
             ["hello.md"] "hello.md"
             (Reference.post_file
                ["id: other"; "date: " ++ Reference.quoted "2022-01-28"]
                "text")
             {| data := {[ "id" := JStr "other";
                           "date" := JStr "2022-01-28" ]};
                content := "text" |}
             "id" (JStr "other"))
      as (record & Hin & _ & Hid);
      [vm_compute; reflexivity|vm_compute; reflexivity|apply list_elem_of_here
      |vm_compute; reflexivity|vm_compute; reflexivity|vm_compute; reflexivity
      |].
    exists record. eexists. split; [vm_compute; reflexivity|]. by split.
  - apply (Habout
             (Reference.post_file ["title: About"; "contentHtml: mine"] "text")
             {| data := {[ "title" := JStr "About";
                           "contentHtml" := JStr "mine" ]};
                content := "text" |}
             (Reference.line "<p>text</p>") "contentHtml" (JStr "mine"));
      vm_compute; reflexivity.
Defined.

(** ** The about page *)

(** C5, as amended.  [getAboutPageData] renders the body of the about file
    with the html plugin alone and at its default options: no [sanitize:
    false], which only [getPostData] passes, and no syntax highlighting.
    Under these plugins raw HTML of the source is not passed through, while
    under those of [getPostData] it is. *)
Theorem getAboutPageData_default_plugins `{RT : Runtime}
    (w : World) (text : string) (m : GrayMatterFile) (html : string) :
  nodes w !! path_join aboutPageDirectory "about.md"
    = Some (RegularFile text) →
  matter text = Returned m →
  remark_process [PluginHtml None] (content m) = Returned html →
  outcome (getAboutPageData w)
    = Returned (spread (data m) {[ "contentHtml" := JStr html ]}) ∧
  trace (getAboutPageData w)
    = [EvReadFile (path_join aboutPageDirectory "about.md"); EvMatter text;
       EvRemark [PluginHtml None] (content m)] ∧
  raw_html_passes [PluginHtml None] = false ∧
  prism_enabled [PluginHtml None] = false ∧
  raw_html_passes postPlugins = true.
Proof.
  intros Hfile Hm Hhtml.
  by rewrite (getAboutPageData_run w text m html Hfile Hm Hhtml).
Qed.

Lemma getAboutPageData_default_plugins_witness :
  outcome (getAboutPageData (RT := Reference.runtime) three_posts)
    = Returned {[ "title" := JStr "About"; "contentHtml" := JStr "" ]} ∧
  trace (getAboutPageData (RT := Reference.runtime) three_posts)
    = [EvReadFile "/site/about/about.md";
       EvMatter (Reference.post_file ["title: About"] "<div>me</div>");
       EvRemark [PluginHtml None] "<div>me</div>"] ∧
  raw_html_passes [PluginHtml None] = false ∧
  prism_enabled [PluginHtml None] = false ∧
  raw_html_passes postPlugins = true.
Proof.
  destruct (getAboutPageData_default_plugins (RT := Reference.runtime)
              three_posts
              (Reference.post_file ["title: About"] "<div>me</div>")
              {| data := {[ "title" := JStr "About" ]};
                 content := "<div>me</div>" |}
              "")
    as (Hout & Htrace & Hrest).
  - vm_compute. reflexivity.
  - vm_compute. reflexivity.
  - vm_compute. reflexivity.
  - split; [|split; [exact Htrace|exact Hrest]].
    rewrite Hout. vm_compute. reflexivity.
Defined.

(** C5 as the specification has it fails: the about file holds the raw HTML
    [<div>me</div>]; [getAboutPageData] hands it to a renderer whose plugins
    sanitize, and its [contentHtml] comes back without it, while the same
    body rendered with the plugins of [getPostData] keeps it. *)
Lemma getAboutPageData_sanitizes :
  ∃ plugins record,
    trace (getAboutPageData (RT := Reference.runtime) three_posts)
      = [EvReadFile "/site/about/about.md";
         EvMatter (Reference.post_file ["title: About"] "<div>me</div>");
         EvRemark plugins "<div>me</div>"] ∧
    raw_html_passes plugins = false ∧
    plugins ≠ postPlugins ∧
    outcome (getAboutPageData (RT := Reference.runtime) three_posts)
      = Returned record ∧
    record !! "contentHtml" = Some (JStr "") ∧
    remark_process (Runtime := Reference.runtime) postPlugins "<div>me</div>"
      = Returned (Reference.line "<div>me</div>").
Proof.
  eexists _, _. split; [vm_compute; reflexivity|].
  split; [vm_compute; reflexivity|].
  split; [discriminate|].
  split; [vm_compute; reflexivity|].
  split; vm_compute; reflexivity.
Qed.

(** ** Determinism *)



















(** ** The listing is metadata only *)

Lemma never_renders_postSummary `{RT : Runtime} (fileName : string) :
  never_renders (postSummary fileName).
Proof.
  intros w. unfold postSummary, readFileSync. unfold_io.
  destruct (nodes w !! path_join postsDirectory fileName) as [[text|?]|];
    simpl; [|by repeat constructor..].
  destruct (matter text); simpl; by repeat constructor.
Qed.

Lemma never_renders_getSortedPostsData `{RT : Runtime} :
  never_renders getSortedPostsData.
Proof.
  unfold getSortedPostsData.
  apply never_renders_bind; [by repeat constructor|intros fileNames].
  apply never_renders_bind; [|intros ?; apply never_renders_ret].
  apply never_renders_Array_map, never_renders_postSummary.
Qed.

(** C9. [getSortedPostsData] never calls the markdown renderer, whatever
    the content store holds.  Every record it returns is the front matter
    of one file of the directory spread over the identifier derived from
    the file's name: its fields are that identifier and front-matter
    fields, and it has a [contentHtml] only if the front matter declares
    one. *)
Theorem getSortedPostsData_metadata_only `{RT : Runtime} (w : World) :
  Forall (λ ev, is_render ev = false) (trace (getSortedPostsData w)) ∧
  ∀ posts,
    outcome (getSortedPostsData w) = Returned posts →
    Forall (λ record, ∃ fileNames fileName text m,
              nodes w !! postsDirectory = Some (Directory fileNames) ∧
              fileName ∈ fileNames ∧
              nodes w !! path_join postsDirectory fileName
                = Some (RegularFile text) ∧
              matter text = Returned m ∧
              record = spread (data m)
                         {[ "id" := JStr (replace_md fileName) ]} ∧
              record !! "contentHtml" = data m !! "contentHtml" ∧
              ∀ k v, record !! k = Some v →
                     (k = "id" ∧ v = JStr (replace_md fileName)) ∨
                     data m !! k = Some v) posts.
Proof.
  split; [apply never_renders_getSortedPostsData|].
  intros posts Hposts.
  apply getSortedPostsData_Returned in Hposts
    as (fileNames & records & Hdir & Hall & ->).
  rewrite Array_sort_perm. apply Forall_lookup. intros n record Hn.
  destruct (Forall2_lookup_r _ _ _ _ _ Hall Hn) as (fileName & Hf & Hrun).
  apply postSummary_Returned in Hrun as (text & m & Hfile & Hm & ->).
  exists fileNames, fileName, text, m.
  split; [done|]. split; [by eapply list_elem_of_lookup_2|].
  split; [done|]. split; [done|]. split; [done|]. split.
  - rewrite lookup_spread.
    destruct (data m !! "contentHtml"); [done|]. by simplify_map_eq.
  - intros k v. rewrite lookup_spread.
    destruct (data m !! k) as [v'|]; [intros [= <-]; by right|].
    intros [<- <-]%lookup_singleton_Some. by left.
Qed.

Lemma getSortedPostsData_metadata_only_witness :
  ∃ posts,
    outcome (getSortedPostsData (RT := Reference.runtime) three_posts)
      = Returned posts ∧
    length posts = 3 ∧
    Forall (λ ev, is_render ev = false)
           (trace (getSortedPostsData (RT := Reference.runtime) three_posts)) ∧
    Forall (λ record, record !! "contentHtml" = None) posts.
Proof.
  destruct (getSortedPostsData_metadata_only (RT := Reference.runtime)
              three_posts) as [Htrace Hrecords].
  eexists. split; [vm_compute; reflexivity|]. split; [done|].
  split; [exact Htrace|].
  eapply Forall_impl; [apply Hrecords; vm_compute; reflexivity|].
  intros record (fileNames & fileName & text & m & Hdir & Hin & Hfile & Hm
                 & _ & Hhtml & _).
  rewrite Hhtml. clear Hhtml.
  injection Hdir as <-.
  repeat (apply elem_of_cons in Hin as [->|Hin]);
    [| | |by apply elem_of_nil in Hin];
    injection Hfile as <-; injection Hm as <-; vm_compute; reflexivity.
Defined.

(** * Further properties of the loader *)

(** ** Identifiers and file names *)

(** X1. Stripping undoes appending: [replace_md (i ++ ".md")] is [i] for
    every [i], also one that itself ends in [.md].  Appending undoes
    stripping exactly for the names that end in [.md], and those are the
    names that stripping changes. *)
Theorem replace_md_round_trip (i s : string) :
  replace_md (i ++ ".md") = i ∧
  (replace_md s ++ ".md" = s ↔ ∃ p, s = p ++ ".md") ∧
  (replace_md s ≠ s ↔ ∃ p, s = p ++ ".md").
Proof.
  split; [apply replace_md_append|].
  destruct (replace_md_cases s) as [(p & -> & Hp)|[Hno Hid]].
  - rewrite Hp. split; split.
    + intros _. by exists p.
    + done.
    + intros _. by exists p.
    + intros _ Heq. apply (f_equal String.length) in Heq.
      rewrite length_append in Heq. simpl in Heq. lia.
  - rewrite Hid. split; split.
    + intros Heq. apply (f_equal String.length) in Heq.
      rewrite length_append in Heq. simpl in Heq. lia.
    + intros [p ->]. by destruct (Hno p).
    + done.
    + intros [p ->]. by destruct (Hno p).
Qed.

(** ** The comparison function of the listing *)

(** X2. On two records whose dates are strings, [byDate] is 1 when the first
    date is the smaller one and -1 otherwise; swapping the arguments
    negates the result exactly when the dates differ, and on equal dates
    both orders give -1. *)
Theorem byDate_antisymmetric_iff_distinct `{RT : Runtime}
    (a b : JsObject) (da db : string) :
  a !! "date" = Some (JStr da) →
  b !! "date" = Some (JStr db) →
  (byDate a b = 1%Z ↔ String.ltb da db = true) ∧
  (byDate a b = (-1)%Z ↔ String.ltb da db = false) ∧
  (byDate a b = (- byDate b a)%Z ↔ da ≠ db) ∧
  (da = db → byDate a b = (-1)%Z ∧ byDate b a = (-1)%Z).
Proof.
  intros Ha Hb. unfold byDate, js_lt, prop. rewrite Ha, Hb. simpl.
  destruct (String.ltb da db) eqn:Hab, (String.ltb db da) eqn:Hba.
  - by rewrite (ltb_asym _ _ Hab) in Hba.
  - repeat split; try done; intros; subst; congruence.
  - repeat split; try done; intros; subst; congruence.
  - assert (da = db) as ->.
    { destruct (decide (da = db)) as [|Hne]; [done|].
      by rewrite (ltb_total _ _ Hab Hne) in Hba. }
    repeat split; done.
Qed.

Lemma byDate_antisymmetric_iff_distinct_witness :
  byDate (RT := Reference.runtime)
    {[ "date" := JStr "2024-01-01" ]} {[ "date" := JStr "2024-03-01" ]} = 1%Z ∧
  byDate (RT := Reference.runtime)
    {[ "date" := JStr "2024-03-01" ]} {[ "date" := JStr "2024-01-01" ]}
    = (-1)%Z.
Proof.
  destruct (byDate_antisymmetric_iff_distinct (RT := Reference.runtime)
              {[ "date" := JStr "2024-01-01" ]}
              {[ "date" := JStr "2024-03-01" ]} "2024-01-01" "2024-03-01")
    as (Hlt & _); [vm_compute; reflexivity..|].
  destruct (byDate_antisymmetric_iff_distinct (RT := Reference.runtime)
              {[ "date" := JStr "2024-03-01" ]}
              {[ "date" := JStr "2024-01-01" ]} "2024-03-01" "2024-01-01")
    as (_ & Hge & _); [vm_compute; reflexivity..|].
  split; [apply Hlt|apply Hge]; vm_compute; reflexivity.
Defined.

(** ** Listing the directory *)

(** X3. [getAllPostIds] looks at nothing but the directory listing: it
    returns exactly when the posts directory can be listed, with one path
    per entry whatever the entry is, and its only library call is that
    listing. *)
Theorem getAllPostIds_listing_only `{RT : Runtime}
    (w : World) (paths : list StaticPath) :
  trace (getAllPostIds w) = [EvReaddir postsDirectory] ∧
  (outcome (getAllPostIds w) = Returned paths ↔
   ∃ fileNames,
     nodes w !! postsDirectory = Some (Directory fileNames) ∧
     paths = (λ fileName, {| params := {| id := replace_md fileName |} |})
               <$> fileNames).
Proof.
  unfold getAllPostIds, readdirSync. unfold_io.
  destruct (nodes w !! postsDirectory) as [[?|fileNames]|]; simpl.
  - split; [done|]. split; [done|]. by intros (? & [=] & _).
  - split; [done|]. split.
    + intros [= <-]. by exists fileNames.
    + by intros (? & [= <-] & ->).
  - split; [done|]. split; [done|]. by intros (? & [=] & _).
Qed.

(** X4. When the posts directory cannot be listed, [getAllPostIds] and
    [getSortedPostsData] throw the same error, and [getSortedPostsData]
    stops there: no file is read. *)
Theorem listing_failure_shared `{RT : Runtime} (w : World) (e : JsError) :
  outcome (getAllPostIds w) = Threw e →
  outcome (getSortedPostsData w) = Threw e ∧
  trace (getSortedPostsData w) = [EvReaddir postsDirectory] ∧
  (e = ENOENT postsDirectory ∨ e = ENOTDIR postsDirectory).
Proof.
  unfold getAllPostIds, getSortedPostsData, readdirSync, absent. unfold_io.
  destruct (nodes w !! postsDirectory) as [[?|fileNames]|]; simpl;
    [|done|]; intros [= <-]; [auto|].
  destruct (below_file w postsDirectory); auto.
Qed.

Lemma listing_failure_shared_witness :
  outcome (getSortedPostsData (RT := Reference.runtime) bare)
    = Threw (ENOENT "/site/posts") ∧
  trace (getSortedPostsData (RT := Reference.runtime) bare)
    = [EvReaddir "/site/posts"] ∧
  (ENOENT "/site/posts" = ENOENT "/site/posts" ∨
   ENOENT "/site/posts" = ENOTDIR "/site/posts").
Proof.
  apply (listing_failure_shared (RT := Reference.runtime) bare
           (ENOENT "/site/posts")).
  vm_compute. reflexivity.
Defined.

(** ** The listing of the posts *)

(** A [map] whose callback throws at one element stops there: the
    exception is the result and no later element is visited. *)
Lemma Array_map_Threw {A B} (f : A → IO B) (good : list A) (bad : A)
    (rest : list A) w (ys : list B) (e : JsError) :
  (∀ x, read_only (f x)) →
  Forall2 (λ x y, outcome (f x w) = Returned y) good ys →
  outcome (f bad w) = Threw e →
  outcome (Array_map f (good ++ bad :: rest)%list w) = Threw e ∧
  trace (Array_map f (good ++ bad :: rest)%list w)
    = concat ((λ x, trace (f x w)) <$> (good ++ [bad])%list).
Proof.
  intros Hf Hgood Hbad. induction Hgood as [|x y good ys Hx _ IH]; simpl.
  - unfold_io. rewrite Hbad. simpl. by rewrite app_nil_r.
  - destruct IH as [IHout IHtrace]. unfold_io. rewrite Hx. simpl.
    rewrite !Hf, IHout. simpl. by rewrite IHtrace.
Qed.

(** X5. [getSortedPostsData] gives no partial result: when the entries
    before some entry of the directory are read and parsed and that entry
    fails, being a subdirectory, missing, or rejected by the parser, the
    operation throws that entry's error, and the entries after it are
    never read. *)
Theorem getSortedPostsData_first_failure `{RT : Runtime}
    (w : World) (good : list string) (bad : string) (rest : list string)
    (e : JsError) :
  nodes w !! postsDirectory = Some (Directory (good ++ bad :: rest)%list) →
  Forall (λ fileName, ∃ text m,
            nodes w !! path_join postsDirectory fileName
              = Some (RegularFile text) ∧
            matter text = Returned m) good →
  outcome (postSummary bad w) = Threw e →
  outcome (getSortedPostsData w) = Threw e ∧
  trace (getSortedPostsData w)
    = EvReaddir postsDirectory
      :: concat ((λ fileName, trace (postSummary fileName w))
                   <$> (good ++ [bad])%list).
Proof.
  intros Hdir Hgood Hbad.
  assert (∃ records,
    Forall2 (λ fileName record,
               outcome (postSummary fileName w) = Returned record)
            good records) as [records Hrecords].
  { clear Hdir. induction Hgood as [|fileName good Hf _ IH].
    - exists []. constructor.
    - destruct Hf as (text & m & Hfile & Hm), IH as [records IH].
      eexists (_ :: records). constructor; [|done].
      by rewrite (postSummary_run w fileName text m Hfile Hm). }
  destruct (Array_map_Threw postSummary good bad rest w records e
              read_only_postSummary Hrecords Hbad) as [Hout Htrace].
  unfold getSortedPostsData, readdirSync. unfold_io.
  rewrite Hdir. simpl. rewrite Hout. simpl. by rewrite Htrace.
Qed.

Lemma getSortedPostsData_first_failure_witness :
  outcome (getSortedPostsData (RT := Reference.runtime) untidy)
    = Threw (EISDIR "/site/posts/drafts") ∧
  trace (getSortedPostsData (RT := Reference.runtime) untidy)
    = [EvReaddir "/site/posts";
       EvReadFile "/site/posts/first.md";
       EvMatter (Reference.post_file
         ["title: First"; "date: " ++ Reference.quoted "2024-01-01"] "# Hi");
       EvReadFile "/site/posts/drafts"].
Proof.
  destruct (getSortedPostsData_first_failure (RT := Reference.runtime) untidy
              ["first.md"] "drafts" ["second.md"]
              (EISDIR "/site/posts/drafts")) as [Hout Htrace].
  - vm_compute. reflexivity.
  - constructor; [|constructor].
    eexists _, _. split; vm_compute; reflexivity.
  - vm_compute. reflexivity.
  - split; [exact Hout|]. rewrite Htrace. vm_compute. reflexivity.
Defined.

(** X6. A listing that succeeds holds one record per entry of the posts
    directory, each the front matter of that entry's file spread over the
    identifier derived from its name; sorting reorders the records and
    neither drops nor repeats one. *)
Theorem getSortedPostsData_one_record_per_file `{RT : Runtime}
    (w : World) (posts : list JsObject) :
  outcome (getSortedPostsData w) = Returned posts →
  ∃ fileNames records,
    nodes w !! postsDirectory = Some (Directory fileNames) ∧
    Forall2 (λ fileName record, ∃ text m,
               nodes w !! path_join postsDirectory fileName
                 = Some (RegularFile text) ∧
               matter text = Returned m ∧
               record = spread (data m)
                          {[ "id" := JStr (replace_md fileName) ]})
            fileNames records ∧
    posts ≡ₚ records ∧
    length posts = length fileNames.
Proof.
  intros (fileNames & records & Hdir & Hall & ->)%getSortedPostsData_Returned.
  exists fileNames, records. split; [done|]. split; [|split].
  - eapply Forall2_impl; [exact Hall|].
    intros fileName record Hrun. by apply postSummary_Returned.
  - apply Array_sort_perm.
  - rewrite Array_sort_perm. symmetry. by eapply Forall2_length.
Qed.

Lemma getSortedPostsData_one_record_per_file_witness :
  ∃ posts fileNames records,
    outcome (getSortedPostsData (RT := Reference.runtime) three_posts)
      = Returned posts ∧
    nodes three_posts !! postsDirectory (RT := Reference.runtime)
      = Some (Directory fileNames) ∧
    posts ≡ₚ records ∧
    length posts = 3.
Proof.
  eexists.
  edestruct (getSortedPostsData_one_record_per_file (RT := Reference.runtime)
               three_posts) as (fileNames & records & Hdir & _ & Hperm & Hlen).
  - vm_compute. reflexivity.
  - exists fileNames, records. split; [reflexivity|]. split; [exact Hdir|].
    split; [exact Hperm|]. reflexivity.
Defined.

(** X7. When no post of the directory declares an [id] in its front
    matter, the identifiers in the records of a successful listing are, up
    to order, the identifiers [getAllPostIds] returns: every post listed
    has its route and every route its post. *)
Theorem listing_ids_are_route_ids `{RT : Runtime}
    (w : World) (fileNames : list string) (posts : list JsObject) :
  nodes w !! postsDirectory = Some (Directory fileNames) →
  outcome (getSortedPostsData w) = Returned posts →
  (∀ fileName text m,
     fileName ∈ fileNames →
     nodes w !! path_join postsDirectory fileName = Some (RegularFile text) →
     matter text = Returned m →
     data m !! "id" = None) →
  ∃ paths,
    outcome (getAllPostIds w) = Returned paths ∧
    (λ post, prop post "id") <$> posts ≡ₚ JStr <$> ids_of paths.
Proof.
  intros Hdir Hposts Hnoid.
  destruct (getSortedPostsData_one_record_per_file w posts Hposts)
    as (fileNames' & records & Hdir' & Hall & Hperm & _).
  assert (fileNames' = fileNames) as -> by congruence.
  rewrite (getAllPostIds_run w fileNames Hdir). simpl.
  eexists. split; [done|]. rewrite Hperm.
  unfold ids_of. rewrite <- !list_fmap_compose.
  clear Hperm Hposts Hdir Hdir'.
  induction Hall as [|fileName record fileNames records Hf _ IH]; [done|].
  destruct Hf as (text & m & Hfile & Hm & ->).
  rewrite !fmap_cons, IH.
  - simpl. unfold prop at 1.
    rewrite lookup_spread,
      (Hnoid fileName text m (list_elem_of_here _ _) Hfile Hm).
    by simplify_map_eq.
  - intros f t m' Hin. apply Hnoid. by apply list_elem_of_further.
Qed.

Lemma listing_ids_are_route_ids_witness :
  ∃ posts paths,
    outcome (getSortedPostsData (RT := Reference.runtime) three_posts)
      = Returned posts ∧
    outcome (getAllPostIds (RT := Reference.runtime) three_posts)
      = Returned paths ∧
    (λ post, prop post "id") <$> posts ≡ₚ JStr <$> ids_of paths.
Proof.
  eexists.
  edestruct (listing_ids_are_route_ids (RT := Reference.runtime) three_posts
               ["first.md"; "second.md"; "third.md"])
    as (paths & Hpaths & Hperm).
  - vm_compute. reflexivity.
  - vm_compute. reflexivity.
  - intros fileName text m Hin Hfile Hm.
    repeat (apply elem_of_cons in Hin as [->|Hin]);
      [| | |by apply elem_of_nil in Hin];
      injection Hfile as <-; injection Hm as <-; vm_compute; reflexivity.
  - exists paths. split; [reflexivity|]. split; [exact Hpaths|exact Hperm].
Defined.

(** ** Routes without a post *)



(** ** Failures of loading one post *)

(** X9. [getPostData] fails at the first step that fails and goes no
    further: a directory at the resolved path is an [EISDIR] error before
    anything is parsed; an error of the front-matter parser is thrown
    before the renderer is called; an error of the renderer is thrown as it
    is.  *)
Theorem getPostData_failures `{RT : Runtime} (w : World) (i : string) :
  (∀ entries,
     nodes w !! path_join postsDirectory (i ++ ".md")
       = Some (Directory entries) →
     outcome (getPostData i w)
       = Threw (EISDIR (path_join postsDirectory (i ++ ".md"))) ∧
     trace (getPostData i w)
       = [EvReadFile (path_join postsDirectory (i ++ ".md"))]) ∧
  (∀ text e,
     nodes w !! path_join postsDirectory (i ++ ".md")
       = Some (RegularFile text) →
     matter text = Threw e →
     outcome (getPostData i w) = Threw e ∧
     trace (getPostData i w)
       = [EvReadFile (path_join postsDirectory (i ++ ".md")); EvMatter text]) ∧
  (∀ text m e,
     nodes w !! path_join postsDirectory (i ++ ".md")
       = Some (RegularFile text) →
     matter text = Returned m →
     remark_process postPlugins (content m) = Threw e →
     outcome (getPostData i w) = Threw e).
Proof.
  unfold getPostData, readFileSync. unfold_io.
  split; [|split].
  - intros entries ->. by simpl.
  - intros text e -> Hm. simpl. by rewrite Hm.
  - intros text m e -> Hm Hhtml. simpl. rewrite Hm. simpl. by rewrite Hhtml.
Qed.

Lemma getPostData_failures_witness :
  (outcome (getPostData (RT := Reference.runtime) "folder" untidy)
     = Threw (EISDIR "/site/posts/folder.md") ∧
   trace (getPostData (RT := Reference.runtime) "folder" untidy)
     = [EvReadFile "/site/posts/folder.md"]) ∧
  (outcome (getPostData (RT := Reference.runtime) "twice" untidy)
     = Threw (MatterError "bad metadata block") ∧
   trace (getPostData (RT := Reference.runtime) "twice" untidy)
     = [EvReadFile "/site/posts/twice.md";
        EvMatter (Reference.post_file ["title: A"; "title: B"] "text")]) ∧
  outcome (getPostData (RT := failing_renderer) "first" untidy)
    = Threw (RemarkError "plugin failed").
Proof.
  split; [|split].
  - apply (proj1 (getPostData_failures (RT := Reference.runtime) untidy
                    "folder") []).
    vm_compute. reflexivity.
  - apply (proj1 (proj2 (getPostData_failures (RT := Reference.runtime)
                           untidy "twice"))
             (Reference.post_file ["title: A"; "title: B"] "text")).
    + vm_compute. reflexivity.
    + vm_compute. reflexivity.
  - apply (proj2 (proj2 (getPostData_failures (RT := failing_renderer)
                           untidy "first"))
             (Reference.post_file
                ["title: First"; "date: " ++ Reference.quoted "2024-01-01"]
                "# Hi")
             {| data := {[ "title" := JStr "First";
                           "date" := JStr "2024-01-01" ]};
                content := "# Hi" |}).
    + vm_compute. reflexivity.
    + vm_compute. reflexivity.
    + vm_compute. reflexivity.
Defined.

(** ** The shape of the records *)

(** X10. The record of a loaded post has the keys of the front matter,
    [id] and [contentHtml], and no others: the markdown body and the other
    fields of the parser's result do not reach it.  The record of the about
    page has the keys of the front matter and [contentHtml], so an [id]
    only if the front matter declares one. *)
Theorem record_keys `{RT : Runtime} (w : World) :
  (∀ i text m html,
     nodes w !! path_join postsDirectory (i ++ ".md")
       = Some (RegularFile text) →
     matter text = Returned m →
     remark_process postPlugins (content m) = Returned html →
     ∃ record,
       outcome (getPostData i w) = Returned record ∧
       dom record = dom (data m) ∪ {[ "id"; "contentHtml" ]}) ∧
  (∀ text m html,
     nodes w !! path_join aboutPageDirectory "about.md"
       = Some (RegularFile text) →
     matter text = Returned m →
     remark_process aboutPlugins (content m) = Returned html →
     ∃ record,
       outcome (getAboutPageData w) = Returned record ∧
       dom record = dom (data m) ∪ {[ "contentHtml" ]} ∧
       record !! "id" = data m !! "id").
Proof.
  split.
  - intros i text m html Hfile Hm Hhtml.
    rewrite (getPostData_run w i text m html Hfile Hm Hhtml). simpl.
    eexists. split; [done|]. unfold spread.
    rewrite dom_union_L, dom_insert_L, dom_singleton_L. set_solver.
  - intros text m html Hfile Hm Hhtml.
    rewrite (getAboutPageData_run w text m html Hfile Hm Hhtml). simpl.
    eexists. split; [done|]. split.
    + unfold spread. by rewrite dom_union_L, dom_singleton_L.
    + rewrite lookup_spread. destruct (data m !! "id"); [done|].
      by simplify_map_eq.
Qed.

Lemma record_keys_witness :
  (∃ record,
     outcome (getPostData (RT := Reference.runtime) "t" round_trip)
       = Returned record ∧
     dom record = {[ "title"; "date"; "id"; "contentHtml" ]}) ∧
  (∃ record,
     outcome (getAboutPageData (RT := Reference.runtime) three_posts)
       = Returned record ∧
     dom record = {[ "title"; "contentHtml" ]} ∧
     record !! "id" = None).
Proof.
  destruct (record_keys (RT := Reference.runtime) round_trip) as [Hpost _].
  destruct (record_keys (RT := Reference.runtime) three_posts) as [_ Habout].
  split.
  - destruct (Hpost "t"
                (Reference.post_file
                   ["title: T"; "date: " ++ Reference.quoted "2024-01-01"]
                   "# Hi")
                {| data := {[ "title" := JStr "T";
                              "date" := JStr "2024-01-01" ]};
                   content := "# Hi" |}
                (Reference.line "<h1>Hi</h1>"))
      as (record & Hrecord & Hdom); [vm_compute; reflexivity..|].
    exists record. split; [exact Hrecord|]. rewrite Hdom. cbn [data].
    rewrite dom_insert_L, dom_singleton_L. set_solver.
  - destruct (Habout
                (Reference.post_file ["title: About"] "<div>me</div>")
                {| data := {[ "title" := JStr "About" ]};
                   content := "<div>me</div>" |}
                "")
      as (record & Hrecord & Hdom & Hid); [vm_compute; reflexivity..|].
    exists record. split; [exact Hrecord|]. split; [|exact Hid].
    rewrite Hdom. cbn [data]. by rewrite dom_singleton_L.
Defined.

(** ** The listing and the single post agree *)

Lemma summary_in_listing `{RT : Runtime}
    (w : World) (fileNames : list string) (posts : list JsObject)
    (fileName text : string) (m : GrayMatterFile) :
  nodes w !! postsDirectory = Some (Directory fileNames) →
  outcome (getSortedPostsData w) = Returned posts →
  fileName ∈ fileNames →
  nodes w !! path_join postsDirectory fileName = Some (RegularFile text) →
  matter text = Returned m →
  spread (data m) {[ "id" := JStr (replace_md fileName) ]} ∈ posts.
Proof.
  intros Hdir Hposts Hin Hfile Hm.
  apply getSortedPostsData_Returned in Hposts
    as (fileNames' & records & Hdir' & Hall & ->).
  assert (fileNames' = fileNames) as -> by congruence.
  apply list_elem_of_lookup in Hin as [n Hn].
  destruct (Forall2_lookup_l _ _ _ _ _ Hall Hn) as (record & Hrec & Hrun).
  rewrite (postSummary_run w fileName text m Hfile Hm) in Hrun.
  simpl in Hrun. injection Hrun as <-.
  rewrite Array_sort_perm. by eapply list_elem_of_lookup_2.
Qed.

Lemma summary_lookup (d : JsObject) (i html k : string) :
  k ≠ "contentHtml" →
  spread d {[ "id" := JStr i ]} !! k
    = spread d (<[ "contentHtml" := JStr html ]> {[ "id" := JStr i ]}) !! k.
Proof.
  intros Hk. rewrite !lookup_spread. destruct (d !! k); [done|].
  by rewrite lookup_insert_ne.
Qed.

(** X11. For a post of the directory that is listed and loaded without
    error, the record of the listing and the record of the single post
    carry the same value under every key but [contentHtml]; when the front
    matter declares no [contentHtml], the listing's record is the post's
    record without that field. *)
Theorem summary_agrees_with_post `{RT : Runtime}
    (w : World) (fileNames : list string) (posts : list JsObject)
    (stem text : string) (m : GrayMatterFile) (html : string) :
  nodes w !! postsDirectory = Some (Directory fileNames) →
  outcome (getSortedPostsData w) = Returned posts →
  stem ++ ".md" ∈ fileNames →
  nodes w !! path_join postsDirectory (stem ++ ".md")
    = Some (RegularFile text) →
  matter text = Returned m →
  remark_process postPlugins (content m) = Returned html →
  ∃ summary full,
    summary ∈ posts ∧
    outcome (getPostData stem w) = Returned full ∧
    (∀ k, k ≠ "contentHtml" → summary !! k = full !! k) ∧
    (data m !! "contentHtml" = None → summary = delete "contentHtml" full).
Proof.
  intros Hdir Hposts Hin Hfile Hm Hhtml.
  pose proof (summary_in_listing w fileNames posts _ text m
                Hdir Hposts Hin Hfile Hm) as Hsummary.
  rewrite replace_md_append in Hsummary.
  rewrite (getPostData_run w stem text m html Hfile Hm Hhtml). simpl.
  eexists _, _. split; [exact Hsummary|]. split; [done|]. split.
  - intros k Hk. by apply summary_lookup.
  - intros Hnone. apply map_eq. intros k.
    destruct (decide (k = "contentHtml")) as [->|Hk].
    + rewrite lookup_delete_eq, lookup_spread, Hnone. by simplify_map_eq.
    + rewrite lookup_delete_ne by done. by apply summary_lookup.
Qed.

Lemma summary_agrees_with_post_witness :
  ∃ summary full,
    summary ∈ [ ({[ "id" := JStr "second"; "title" := JStr "Second";
                    "date" := JStr "2024-03-01" ]} : JsObject);
                {[ "id" := JStr "third"; "title" := JStr "Third";
                   "date" := JStr "2024-02-01" ]};
                {[ "id" := JStr "first"; "title" := JStr "First";
                   "date" := JStr "2024-01-01" ]} ] ∧
    outcome (getPostData (RT := Reference.runtime) "first" three_posts)
      = Returned full ∧
    (∀ k, k ≠ "contentHtml" → summary !! k = full !! k) ∧
    summary = delete "contentHtml" full.
Proof.
  destruct (summary_agrees_with_post (RT := Reference.runtime) three_posts
              ["first.md"; "second.md"; "third.md"]
              [ {[ "id" := JStr "second"; "title" := JStr "Second";
                   "date" := JStr "2024-03-01" ]};
                {[ "id" := JStr "third"; "title" := JStr "Third";
                   "date" := JStr "2024-02-01" ]};
                {[ "id" := JStr "first"; "title" := JStr "First";
                   "date" := JStr "2024-01-01" ]} ]
              "first"
              (Reference.post_file
                 ["title: First"; "date: " ++ Reference.quoted "2024-01-01"]
                 "# Hi")
              {| data := {[ "title" := JStr "First";
                            "date" := JStr "2024-01-01" ]};
                 content := "# Hi" |}
              (Reference.line "<h1>Hi</h1>"))
    as (summary & full & Hin & Hfull & Hkeys & Hdelete).
  - vm_compute. reflexivity.
  - vm_compute. reflexivity.
  - apply list_elem_of_here.
  - vm_compute. reflexivity.
  - vm_compute. reflexivity.
  - vm_compute. reflexivity.
  - exists summary, full. split; [exact Hin|]. split; [exact Hfull|].
    split; [exact Hkeys|]. apply Hdelete. vm_compute. reflexivity.
Defined.

(** ** What loading touches *)

(** X12. Whatever the content store holds and whether it succeeds or
    fails, [getPostData] never lists a directory and reads no file but the
    one its identifier resolves to; [getAboutPageData] likewise reads
    [about.md] only.  Loading one page does not depend on the other
    posts. *)
Theorem loading_reads_one_file `{RT : Runtime} (w : World) (i : string) :
  Forall (reads_at_most (path_join postsDirectory (i ++ ".md")))
         (trace (getPostData i w)) ∧
  Forall (reads_at_most (path_join aboutPageDirectory "about.md"))
         (trace (getAboutPageData w)).
Proof.
  split.
  - unfold getPostData, readFileSync. unfold_io.
    destruct (nodes w !! path_join postsDirectory (i ++ ".md"))
      as [[text|?]|]; simpl; [|by repeat constructor..].
    destruct (matter text) as [m|?]; simpl; [|by repeat constructor].
    destruct (remark_process postPlugins (content m)); simpl;
      by repeat constructor.
  - unfold getAboutPageData, readFileSync. unfold_io.
    destruct (nodes w !! path_join aboutPageDirectory "about.md")
      as [[text|?]|]; simpl; [|by repeat constructor..].
    destruct (matter text) as [m|?]; simpl; [|by repeat constructor].
    destruct (remark_process aboutPlugins (content m)); simpl;
      by repeat constructor.
Qed.

(** ** Failures of the about page *)

(** X13. [getAboutPageData] fails as [getPostData] does: a missing
    [about.md] is a file-not-found error, or [ENOTDIR] when a component of
    its path, such as [about], is a regular file, and a directory in its
    place is an [EISDIR] error, all before anything is parsed; an error of
    the parser is thrown before the renderer is called, and an error of the
    renderer is thrown as it is.  No record is returned in any of these
    cases. *)
Theorem getAboutPageData_failures `{RT : Runtime} (w : World) :
  (nodes w !! path_join aboutPageDirectory "about.md" = None →
   outcome (getAboutPageData w)
     = Threw (if below_file w (path_join aboutPageDirectory "about.md")
              then ENOTDIR (path_join aboutPageDirectory "about.md")
              else ENOENT (path_join aboutPageDirectory "about.md")) ∧
   trace (getAboutPageData w)
     = [EvReadFile (path_join aboutPageDirectory "about.md")]) ∧
  (∀ entries,
     nodes w !! path_join aboutPageDirectory "about.md"
       = Some (Directory entries) →
     outcome (getAboutPageData w)
       = Threw (EISDIR (path_join aboutPageDirectory "about.md")) ∧
     trace (getAboutPageData w)
       = [EvReadFile (path_join aboutPageDirectory "about.md")]) ∧
  (∀ text e,
     nodes w !! path_join aboutPageDirectory "about.md"
       = Some (RegularFile text) →
     matter text = Threw e →
     outcome (getAboutPageData w) = Threw e ∧
     trace (getAboutPageData w)
       = [EvReadFile (path_join aboutPageDirectory "about.md");
          EvMatter text]) ∧
  (∀ text m e,
     nodes w !! path_join aboutPageDirectory "about.md"
       = Some (RegularFile text) →
     matter text = Returned m →
     remark_process aboutPlugins (content m) = Threw e →
     outcome (getAboutPageData w) = Threw e).
Proof.
  unfold getAboutPageData, readFileSync. unfold_io.
  split; [|split; [|split]].
  - intros ->. by simpl.
  - intros entries ->. by simpl.
  - intros text e -> Hm. simpl. by rewrite Hm.
  - intros text m e -> Hm Hhtml. simpl. rewrite Hm. simpl. by rewrite Hhtml.
Qed.

Lemma getAboutPageData_failures_witness :
  (outcome (getAboutPageData (RT := Reference.runtime) bare)
     = Threw (ENOENT "/site/about/about.md") ∧
   trace (getAboutPageData (RT := Reference.runtime) bare)
     = [EvReadFile "/site/about/about.md"]) ∧
  (outcome (getAboutPageData (RT := Reference.runtime) about_is_file)
     = Threw (ENOTDIR "/site/about/about.md") ∧
   trace (getAboutPageData (RT := Reference.runtime) about_is_file)
     = [EvReadFile "/site/about/about.md"]) ∧
  (outcome (getAboutPageData (RT := Reference.runtime) untidy)
     = Threw (EISDIR "/site/about/about.md") ∧
   trace (getAboutPageData (RT := Reference.runtime) untidy)
     = [EvReadFile "/site/about/about.md"]) ∧
  (outcome (getAboutPageData (RT := Reference.runtime) broken_about)
     = Threw (MatterError "bad metadata block") ∧
   trace (getAboutPageData (RT := Reference.runtime) broken_about)
     = [EvReadFile "/site/about/about.md";
        EvMatter (Reference.post_file ["title: A"; "title: B"] "text")]) ∧
  outcome (getAboutPageData (RT := failing_renderer) three_posts)
    = Threw (RemarkError "plugin failed").
Proof.
  split; [|split; [|split; [|split]]].
  - apply (proj1 (getAboutPageData_failures (RT := Reference.runtime) bare)).
    vm_compute. reflexivity.
  - apply (proj1 (getAboutPageData_failures (RT := Reference.runtime)
                    about_is_file)).
    vm_compute. reflexivity.
  - apply (proj1 (proj2 (getAboutPageData_failures (RT := Reference.runtime)
                           untidy)) []).
    vm_compute. reflexivity.
  - apply (proj1 (proj2 (proj2 (getAboutPageData_failures
                                  (RT := Reference.runtime) broken_about)))
             (Reference.post_file ["title: A"; "title: B"] "text"));
      vm_compute; reflexivity.
  - apply (proj2 (proj2 (proj2 (getAboutPageData_failures
                                  (RT := failing_renderer) three_posts)))
             (Reference.post_file ["title: About"] "<div>me</div>")
             {| data := {[ "title" := JStr "About" ]};
                content := "<div>me</div>" |});
      vm_compute; reflexivity.
Defined.

(** ** The pages *)

Lemma getSortedPostsData_succeeds `{RT : Runtime}
    (w : World) (fileNames : list string) :
  nodes w !! postsDirectory = Some (Directory fileNames) →
  Forall (λ fileName, ∃ text m,
            nodes w !! path_join postsDirectory fileName
              = Some (RegularFile text) ∧
            matter text = Returned m) fileNames →
  ∃ posts,
    outcome (getSortedPostsData w) = Returned posts ∧
    length posts = length fileNames.
Proof.
  intros Hdir Hfiles.
  assert (∃ records,
    Forall2 (λ fileName record,
               outcome (postSummary fileName w) = Returned record)
            fileNames records) as [records Hrecords].
  { clear Hdir. induction Hfiles as [|fileName fileNames Hf _ IH].
    - exists []. constructor.
    - destruct Hf as (text & m & Hfile & Hm), IH as [records IH].
      eexists (_ :: records). constructor; [|done].
      by rewrite (postSummary_run w fileName text m Hfile Hm). }
  exists (Array_sort byDate records). split.
  - apply getSortedPostsData_Returned. by exists fileNames, records.
  - rewrite Array_sort_perm. symmetry. by eapply Forall2_length.
Qed.

(** X14. When every entry of the posts directory is a file whose name ends
    in [.md] and that is read, parsed and rendered without error, the pages
    fit together: [getStaticPaths] declares one path per entry with
    [fallback: false]; the home page's [getStaticProps] returns as many
    posts; and for every declared path the post page's [getStaticProps]
    returns a post that agrees with one of the home page's posts on every
    field but [contentHtml]. *)
Theorem pages_fit_together `{RT : Runtime}
    (w : World) (fileNames : list string) :
  nodes w !! postsDirectory = Some (Directory fileNames) →
  Forall (λ fileName, ∃ stem text m html,
            fileName = stem ++ ".md" ∧
            nodes w !! path_join postsDirectory fileName
              = Some (RegularFile text) ∧
            matter text = Returned m ∧
            remark_process postPlugins (content m) = Returned html)
         fileNames →
  ∃ declared home,
    outcome (PostPage.getStaticPaths w) = Returned declared ∧
    PostPage.fallback declared = false ∧
    length (PostPage.paths declared) = length fileNames ∧
    outcome (IndexPage.getStaticProps w) = Returned home ∧
    length (IndexPage.allPostsData (IndexPage.props home))
      = length fileNames ∧
    Forall (λ path, ∃ page summary,
              outcome (PostPage.getStaticProps (params path) w)
                = Returned page ∧
              summary ∈ IndexPage.allPostsData (IndexPage.props home) ∧
              ∀ k, k ≠ "contentHtml" →
                   summary !! k
                     = PostPage.postData (PostPage.props page) !! k)
           (PostPage.paths declared).
Proof.
  intros Hdir Hfiles.
  destruct (getSortedPostsData_succeeds w fileNames Hdir) as (posts & Hposts & Hlen).
  { eapply Forall_impl; [exact Hfiles|].
    intros fileName (stem & text & m & html & _ & Hfile & Hm & _).
    by exists text, m. }
  exists {| PostPage.paths :=
              (λ fileName, {| params := {| id := replace_md fileName |} |})
                <$> fileNames;
            PostPage.fallback := false |},
         {| IndexPage.props := {| IndexPage.allPostsData := posts |} |}.
  split; [|split; [done|split; [by simpl; rewrite length_fmap|split; [|split; [done|]]]]].
  - unfold PostPage.getStaticPaths. unfold_io.
    by rewrite (getAllPostIds_run w fileNames Hdir).
  - unfold IndexPage.getStaticProps. unfold_io.
    rewrite read_only_getSortedPostsData. by rewrite Hposts.
  - simpl. apply Forall_fmap, Forall_forall. intros fileName Hin.
    pose proof (proj1 (Forall_forall _ _) Hfiles fileName Hin)
      as (stem & text & m & html & -> & Hfile & Hm & Hhtml).
    pose proof (summary_in_listing w fileNames posts _ text m
                  Hdir Hposts Hin Hfile Hm) as Hsummary.
    simpl. rewrite replace_md_append in *.
    eexists _, _. split; [|split; [exact Hsummary|]].
    + unfold PostPage.getStaticProps. unfold_io.
      by rewrite (getPostData_run w stem text m html Hfile Hm Hhtml).
    + intros k Hk. simpl. by apply summary_lookup.
Qed.

Lemma pages_fit_together_witness :
  ∃ declared home,
    outcome (PostPage.getStaticPaths (RT := Reference.runtime) three_posts)
      = Returned declared ∧
    PostPage.fallback declared = false ∧
    length (PostPage.paths declared) = 3 ∧
    outcome (IndexPage.getStaticProps (RT := Reference.runtime) three_posts)
      = Returned home ∧
    length (IndexPage.allPostsData (IndexPage.props home)) = 3 ∧
    Forall (λ path, ∃ page summary,
              outcome (PostPage.getStaticProps (RT := Reference.runtime)
                         (params path) three_posts)
                = Returned page ∧
              summary ∈ IndexPage.allPostsData (IndexPage.props home) ∧
              ∀ k, k ≠ "contentHtml" →
                   summary !! k
                     = PostPage.postData (PostPage.props page) !! k)
           (PostPage.paths declared).
Proof.
  apply (pages_fit_together (RT := Reference.runtime) three_posts
           ["first.md"; "second.md"; "third.md"]).
  - vm_compute. reflexivity.
  - repeat constructor.
    + exists "first". eexists _, _, _.
      split; [reflexivity|]. split; [vm_compute; reflexivity|].
      split; vm_compute; reflexivity.
    + exists "second". eexists _, _, _.
      split; [reflexivity|]. split; [vm_compute; reflexivity|].
      split; vm_compute; reflexivity.
    + exists "third". eexists _, _, _.
      split; [reflexivity|]. split; [vm_compute; reflexivity|].
      split; vm_compute; reflexivity.
Defined.

(** ** The order of the directory listing *)

Lemma ltb_trans (s t u : string) :
  String.ltb s t = true → String.ltb t u = true → String.ltb s u = true.
Proof.
  unfold String.ltb. intros Hst Htu.
  destruct (String.compare s t) eqn:Est; try done.
  destruct (String.compare t u) eqn:Etu; try done.
  apply OrderedTypeEx.String_as_OT.cmp_lt in Est, Etu.
  pose proof (OrderedTypeEx.String_as_OT.lt_trans _ _ _ Est Etu) as Hsu.
  apply OrderedTypeEx.String_as_OT.cmp_lt in Hsu.
  unfold OrderedTypeEx.String_as_OT.cmp in Hsu. by rewrite Hsu.
Qed.

Lemma date_gt_trans (a b c : JsObject) :
  date_gt a b = true → date_gt b c = true → date_gt a c = true.
Proof.
  unfold date_gt.
  destruct (prop a "date"), (prop b "date"), (prop c "date"); try done.
  intros Hab Hbc. by eapply ltb_trans.
Qed.

Lemma date_gt_asym (a b : JsObject) :
  date_gt a b = true → date_gt b a = true → a = b.
Proof.
  unfold date_gt.
  destruct (prop a "date"), (prop b "date"); try done.
  intros Hab Hba. by rewrite (ltb_asym _ _ Hab) in Hba.
Qed.

(** Two lists of records with the same elements, whose dates are strings
    and pairwise distinct, are sorted into the same list. *)
Lemma Array_sort_byDate_perm `{RT : Runtime}
    (l l' : list JsObject) (dates : list string) :
  l ≡ₚ l' →
  (λ post, post !! "date") <$> l = (Some ∘ JStr) <$> dates →
  NoDup dates →
  Array_sort byDate l = Array_sort byDate l'.
Proof.
  intros Hperm Hdates Hnodup.
  assert (Forall (λ p : JsObject, ∃ d, p !! "date" = Some (JStr d)) l)
    as Hstrings.
  { clear Hperm Hnodup. revert dates Hdates.
    induction l as [|x l IH]; intros dates Hdates; [constructor|].
    destruct dates as [|d dates]; [done|].
    injection Hdates as Hx Hl. constructor; [by exists d|].
    by apply (IH dates). }
  assert (NoDup ((λ post, prop post "date") <$> l)) as Hdistinct.
  { assert ((λ post, prop post "date") <$> l = JStr <$> dates) as ->.
    { clear Hperm Hnodup Hstrings. revert dates Hdates.
      induction l as [|x l IH]; intros dates Hdates.
      { by destruct dates. }
      destruct dates as [|d dates]; [done|].
      injection Hdates as Hx Hl. rewrite !fmap_cons, (IH dates Hl).
      unfold prop. by rewrite Hx. }
    apply NoDup_fmap_2; [|done]. by intros ?? [= ->]. }
  apply (@Sorted_unique_strong _ (λ a b, date_gt a b = true) date_gt_trans).
  - intros x1 x2 _ _. apply date_gt_asym.
  - apply sorted_strict; [by apply Array_sort_sorted|].
    by rewrite Array_sort_perm.
  - apply sorted_strict.
    + apply Array_sort_sorted. by rewrite <- Hperm.
    + by rewrite Array_sort_perm, <- Hperm.
  - by rewrite !Array_sort_perm.
Qed.

(** [postSummary] looks at the content store at one path only. *)
Lemma postSummary_ext `{RT : Runtime} (w w' : World) (fileName : string) :
  nodes w' !! path_join postsDirectory fileName
    = nodes w !! path_join postsDirectory fileName →
  is_Some (nodes w !! path_join postsDirectory fileName) →
  outcome (postSummary fileName w') = outcome (postSummary fileName w).
Proof.
  intros Hsame [node Hnode]. unfold postSummary, readFileSync. unfold_io.
  rewrite Hsame, Hnode.
  destruct node as [text|?]; simpl; try done.
  by destruct (matter text).
Qed.

(** X15. The order in which the directory lists its entries does not show
    in the listing of the posts: two content stores with the same post
    files, all parsed to front matter with string dates, pairwise
    distinct, and with directory listings that are permutations of each
    other, give the same list of posts. *)
Theorem listing_order_independent `{RT : Runtime}
    (w w' : World) (fileNames fileNames' dates : list string) :
  nodes w !! postsDirectory = Some (Directory fileNames) →
  nodes w' !! postsDirectory = Some (Directory fileNames') →
  fileNames ≡ₚ fileNames' →
  (∀ fileName, fileName ∈ fileNames →
     nodes w' !! path_join postsDirectory fileName
       = nodes w !! path_join postsDirectory fileName) →
  Forall2 (λ fileName d, ∃ text m,
             nodes w !! path_join postsDirectory fileName
               = Some (RegularFile text) ∧
             matter text = Returned m ∧
             data m !! "date" = Some (JStr d)) fileNames dates →
  NoDup dates →
  ∃ posts,
    outcome (getSortedPostsData w) = Returned posts ∧
    outcome (getSortedPostsData w') = Returned posts.
Proof.
  intros Hdir Hdir' Hperm Hsame Hfiles Hnodup.
  set (summary := λ fileName,
         match outcome (postSummary fileName w) with
         | Returned record => record
         | Threw _ => ∅
         end).
  assert (Forall (λ fileName,
            outcome (postSummary fileName w) = Returned (summary fileName))
            fileNames) as Hsummary.
  { clear Hdir Hperm Hsame Hnodup.
    induction Hfiles as [|fileName d fileNames dates Hf _ IH];
      constructor; [|done].
    destruct Hf as (text & m & Hfile & Hm & _). unfold summary.
    by rewrite (postSummary_run w fileName text m Hfile Hm). }
  assert ((λ post, post !! "date") <$> (summary <$> fileNames)
            = (Some ∘ JStr) <$> dates) as Hdates.
  { clear Hdir Hperm Hsame Hnodup Hsummary.
    induction Hfiles as [|fileName d fileNames dates Hf _ IH]; [done|].
    destruct Hf as (text & m & Hfile & Hm & Hd).
    rewrite !fmap_cons, IH. f_equal. unfold summary.
    rewrite (postSummary_run w fileName text m Hfile Hm). simpl.
    rewrite lookup_spread. by rewrite Hd. }
  exists (Array_sort byDate (summary <$> fileNames)). split.
  - apply getSortedPostsData_Returned.
    exists fileNames, (summary <$> fileNames). split; [done|]. split; [|done].
    apply Forall2_fmap_r, Forall_Forall2_diag. exact Hsummary.
  - apply getSortedPostsData_Returned.
    exists fileNames', (summary <$> fileNames'). split; [done|]. split.
    + apply Forall2_fmap_r, Forall_Forall2_diag.
      rewrite <- Hperm. apply Forall_forall. intros fileName Hin.
      rewrite (postSummary_ext w w' fileName (Hsame fileName Hin)).
      * by apply (proj1 (Forall_forall _ _) Hsummary).
      * apply list_elem_of_lookup in Hin as [n Hn].
        destruct (Forall2_lookup_l _ _ _ _ _ Hfiles Hn)
          as (d & _ & text & m & Hfile & _).
        by exists (RegularFile text).
    + apply (Array_sort_byDate_perm _ _ dates); [|done..].
      by apply fmap_Permutation.
Qed.

Lemma listing_order_independent_witness :
  ∃ posts,
    outcome (getSortedPostsData (RT := Reference.runtime) three_posts)
      = Returned posts ∧
    outcome (getSortedPostsData (RT := Reference.runtime)
               three_posts_reordered) = Returned posts.
Proof.
  apply (listing_order_independent (RT := Reference.runtime)
           three_posts three_posts_reordered
           ["first.md"; "second.md"; "third.md"]
           ["third.md"; "first.md"; "second.md"]
           ["2024-01-01"; "2024-03-01"; "2024-02-01"]).
  - vm_compute. reflexivity.
  - vm_compute. reflexivity.
  - change ["first.md"; "second.md"; "third.md"]
      with (["first.md"; "second.md"] ++ ["third.md"])%list.
    apply Permutation_app_comm.
  - intros fileName Hin.
    repeat (apply elem_of_cons in Hin as [->|Hin]);
      [| | |by apply elem_of_nil in Hin]; vm_compute; reflexivity.
  - repeat constructor.
    + eexists _, _. split; [vm_compute; reflexivity|].
      split; vm_compute; reflexivity.
    + eexists _, _. split; [vm_compute; reflexivity|].
      split; vm_compute; reflexivity.
    + eexists _, _. split; [vm_compute; reflexivity|].
      split; vm_compute; reflexivity.
  - refine (bool_decide_unpack (NoDup _) _). vm_compute. exact I.
Defined.

(** ** The pages catch nothing *)

(** The page functions add no library call and no handler to the
    loader operation they wrap: each returns the loader's result inside
    its [props] (or [paths], with [fallback: false]) when the loader
    returns, and throws the loader's error when the loader throws. *)
Lemma pages_propagate `{RT : Runtime} (w : World) (params : Params) :
  (outcome (PostPage.getStaticProps params w)
     = match outcome (getPostData (id params) w) with
       | Returned postData =>
           Returned {| PostPage.props := {| PostPage.postData := postData |} |}
       | Threw e => Threw e
       end ∧
   trace (PostPage.getStaticProps params w)
     = trace (getPostData (id params) w)) ∧
  (outcome (PostPage.getStaticPaths w)
     = match outcome (getAllPostIds w) with
       | Returned paths =>
           Returned {| PostPage.paths := paths; PostPage.fallback := false |}
       | Threw e => Threw e
       end ∧
   trace (PostPage.getStaticPaths w) = trace (getAllPostIds w)) ∧
  (outcome (IndexPage.getStaticProps w)
     = match outcome (getSortedPostsData w) with
       | Returned posts =>
           Returned {| IndexPage.props :=
                         {| IndexPage.allPostsData := posts |} |}
       | Threw e => Threw e
       end ∧
   trace (IndexPage.getStaticProps w) = trace (getSortedPostsData w)) ∧
  (outcome (AboutPage.getStaticProps w)
     = match outcome (getAboutPageData w) with
       | Returned record =>
           Returned {| AboutPage.props :=
                         {| AboutPage.aboutPageData := record |} |}
       | Threw e => Threw e
       end ∧
   trace (AboutPage.getStaticProps w) = trace (getAboutPageData w)).
Proof.
  unfold PostPage.getStaticProps, PostPage.getStaticPaths,
    IndexPage.getStaticProps, AboutPage.getStaticProps.
  unfold mbind, mret, IO_bind, IO_ret, io_bind, io_ret. cbn beta.
  repeat split.
  - by destruct (outcome (getPostData (id params) w)).
  - destruct (outcome (getPostData (id params) w)); simpl; [|done].
    by rewrite app_nil_r.
  - by destruct (outcome (getAllPostIds w)).
  - destruct (outcome (getAllPostIds w)); simpl; [|done].
    by rewrite app_nil_r.
  - by destruct (outcome (getSortedPostsData w)).
  - destruct (outcome (getSortedPostsData w)); simpl; [|done].
    by rewrite app_nil_r.
  - by destruct (outcome (getAboutPageData w)).
  - destruct (outcome (getAboutPageData w)); simpl; [|done].
    by rewrite app_nil_r.
Qed.
